(** * LHCb_Trends: run selection, metric extraction and trend assembly

    A shallow embedding of [plot_occupancies.py], [plot_pseudo_efficiencies.py]
    and [occupancy_options.py].

    Conventions of the embedding.
    - Python [float]s are real numbers ([R]) and Python [int]s are [Z].
      Where a computed float is floored or decides a branch (the shard
      directories, the range of the y axis) every arithmetic result goes
      through [rnd], the rounding of the exact result to a binary64 number
      ([Float.rounding]); elsewhere the arithmetic is exact.  Infinities
      and NaN are not modelled.
    - An uncaught Python exception, or [sys.exit], ends the whole script:
      both are values of [exn], threaded through the [result] monad.
    - ROOT objects are external; a histogram is the record of the answers
      its methods give ([Root.histogram]).
    - Dictionaries keyed by strings are [gmap string _]. *)

From Stdlib Require Import Reals Lra Lia ZArith Ascii String.
From stdpp Require Import base option list strings gmap pretty.

Open Scope Z_scope.
Open Scope string_scope.
Open Scope list_scope.

(** ** The part of the Python runtime the scripts rely on *)

Module Py.

Inductive exn : Type :=
| IndexError
| ZeroDivisionError
| ValueError
| NameError
| AttributeError
| SystemExit (code : Z).

Inductive result (A : Type) : Type :=
| Ok (a : A)
| Raise (e : exn).
Arguments Ok {A} a.
Arguments Raise {A} e.

Definition bind {A B} (m : result A) (k : A → result B) : result B :=
  match m with
  | Ok a => k a
  | Raise e => Raise e
  end.

#[global] Instance result_ret : MRet result := λ A a, Ok a.
#[global] Instance result_bind : MBind result := λ A B k m, bind m k.

(** Comparisons of floats are decided by the order of the reals. *)
#[global] Instance float_eq_dec : EqDecision R := Req_dec_T.
#[global] Instance float_lt_dec (x y : R) : Decision (x < y)%R := Rlt_dec x y.

(** [x / y] on floats. *)
Definition div (x y : R) : result R :=
  if Req_dec_T y 0 then Raise ZeroDivisionError else Ok (x / y)%R.

(** [math.sqrt]. *)
Definition sqrt (x : R) : result R :=
  if Rlt_dec x 0 then Raise ValueError else Ok (R_sqrt.sqrt x).

(** [math.floor]. *)
Definition floor (x : R) : Z := Zfloor x.

(** [str(n)] for an [int]. *)
Definition str (n : Z) : string := pretty n.

(** [l[i]] for [0 <= i], and [l[-1]]. *)
Definition index {A} (l : list A) (i : nat) : result A :=
  match l !! i with
  | Some a => Ok a
  | None => Raise IndexError
  end.

Definition index_last {A} (l : list A) : result A :=
  match last l with
  | Some a => Ok a
  | None => Raise IndexError
  end.

(** [sep in s]. *)
Fixpoint contains (sep s : string) : bool :=
  String.prefix sep s ||
  match s with
  | EmptyString => false
  | String _ s' => contains sep s'
  end.

(** [s.split(sep)] for a non-empty [sep]: the occurrences of [sep] are
    found from the left and do not overlap.  [skip] counts the characters
    of a separator still to be dropped, [cur] is the current piece,
    reversed. *)
Fixpoint split_go (sep : string) (skip : nat) (cur s : string) : list string :=
  match s with
  | EmptyString => [String.rev cur]
  | String c s' =>
      match skip with
      | S k => split_go sep k cur s'
      | O =>
          if String.prefix sep s
          then String.rev cur :: split_go sep (String.length sep - 1) "" s'
          else split_go sep 0 (String c cur) s'
      end
  end.

Definition split (sep s : string) : list string := split_go sep 0 "" s.

(** [s.replace(old, new)] for a non-empty [old]: the pieces between the
    occurrences of [old], joined by [new]. *)
Definition replace (old new s : string) : string :=
  String.concat new (split old s).

(** [int(s)] on an ASCII string: surrounding white space is dropped, one
    sign is allowed, single underscores may separate digits. *)
Definition is_space (c : ascii) : bool :=
  let n := nat_of_ascii c in
  bool_decide (9 ≤ n ≤ 13)%nat || bool_decide (28 ≤ n ≤ 32)%nat.

Definition digit_value (c : ascii) : option Z :=
  let n := nat_of_ascii c in
  if bool_decide (48 ≤ n ≤ 57)%nat then Some (Z.of_nat n - 48) else None.

Fixpoint drop_space (s : string) : string :=
  match s with
  | String c s' => if is_space c then drop_space s' else s
  | EmptyString => EmptyString
  end.

Definition strip (s : string) : string :=
  String.rev (drop_space (String.rev (drop_space s))).

Fixpoint digits (acc : Z) (after_digit : bool) (s : string) : option Z :=
  match s with
  | EmptyString => if after_digit then Some acc else None
  | String c s' =>
      match digit_value c with
      | Some d => digits (10 * acc + d) true s'
      | None =>
          if Ascii.eqb c "_" && after_digit then digits acc false s' else None
      end
  end.

Definition int (s : string) : result Z :=
  let parsed :=
    match strip s with
    | String "-" s' => Z.opp <$> digits 0 false s'
    | String "+" s' => digits 0 false s'
    | s' => digits 0 false s'
    end in
  match parsed with
  | Some n => Ok n
  | None => Raise ValueError
  end.

End Py.

Export Py (Ok, Raise, result_ret, result_bind, float_eq_dec, float_lt_dec).

(** ** Python floats

    A float is an IEEE binary64 number: an integer of less than 53 bits
    times a power of two.  The result of an arithmetic operation on floats
    is the exact result rounded to the nearest such number; of that rounding
    the development uses that it keeps the order and leaves binary64
    numbers as they are. *)

Module Float.

Definition binary64 (x : R) : Prop :=
  ∃ m e : Z,
    x = (IZR m * powerRZ 2 e)%R ∧ (Z.abs m < 2 ^ 53)%Z ∧ (-1074 ≤ e ≤ 971)%Z.

Record rounding (rnd : R → R) : Prop := {
  rnd_monotone : ∀ x y : R, (x <= y)%R → (rnd x <= rnd y)%R;
  rnd_exact : ∀ x : R, binary64 x → rnd x = x
}.

End Float.

(** ** ROOT histograms, as the scripts see them

    The storage format and the statistics primitives are external; a
    histogram object is the record of what its methods answer. *)

Module Root.

Record histogram : Type := {
  GetName : string;
  InheritsFromTH2 : bool;
  GetEntries : R;
  GetMean : R;
  GetMeanError : R;
  GetRMS : R;
  GetRMSError : R;
  GetNbinsX : Z;
  GetNbinsY : Z;
  FindBin : R → Z;
  ProjectionX_FindBin : R → Z;
  ProjectionY_FindBin : R → Z;
  GetXaxis_FindBin : R → Z;
  GetYaxis_FindBin : R → Z;
  GetBinContent : Z → R;
  GetBinError : Z → R;
  Integral : Z → Z → R;
  Integral2 : Z → Z → Z → Z → R
}.

End Root.

Import Root.

(** ** occupancy_options.py *)

Module OccupancyOptions.

(** A region of interest, [{'x': [...], 'y': [...]}]. *)
Record roi : Type := { roi_x : list Z; roi_y : list Z }.

Definition sensor (mod_ : nat) (s : string) : string :=
  "Mod" +:+ pretty mod_ +:+ "Sens" +:+ s.

Definition populated_regions : gmap string roi :=
  foldl
    (λ regions mod_,
       <[sensor mod_ "3" := {| roi_x := [500; 750]; roi_y := [180; 250] |}]>
      (<[sensor mod_ "2" := {| roi_x := [0; 200]; roi_y := [200; 250] |}]>
      (<[sensor mod_ "1" := {| roi_x := [0; 250]; roi_y := [150; 250] |}]>
      (<[sensor mod_ "0" := {| roi_x := [550; 750]; roi_y := [200; 250] |}]>
         regions))))
    ∅ (seq 0 52).

End OccupancyOptions.

Import OccupancyOptions.

(** ** The world outside the scripts

    What the run database, the file system and the archive answer for one
    run.  The metadata file is taken to hold a JSON object whose
    [starttime] and [endtime] parse; [rw_state] is [None] when the object
    has no [state]. *)

Module World.

Record run_world : Type := {
  rw_state : option string;
  rw_destination : string;
  rw_start : R;
  rw_end : R;
  rw_exists : bool;
  rw_exists_after_request : bool;
  rw_zombie : bool;
  rw_recovered : bool;
  rw_objects : gmap string histogram
}.

(** The effects of the admission sequence on the file system and on the
    archival service, in the order they happen. *)
Inductive event : Type :=
| PathExists (run : Z)
| CreateSaveset (run : Z)
| OpenFile (run : Z).

Inductive rejection : Type :=
| NotFinalized
| InvalidInfo
| WrongDestination
| TooShort
| NoData
| Unopenable
| CrashRecovered.

Inductive verdict : Type :=
| Admit (run_length : R)
| Reject (why : rejection).

#[global] Instance event_eq_dec : EqDecision event.
Proof. solve_decision. Defined.

End World.

Import World.

(** ** plot_occupancies.py *)

Module Occupancies.

(** [run_no/10000] and [run_no/1000] are floats: the quotients of the two
    integers, rounded by [rnd]. *)
Definition run_dir_from_run_no (rnd : R → R) (run_no : Z) : string :=
  let sd_1 := Py.floor (rnd (IZR run_no / 10000)%R) * 10000 in
  let sd_2 := Py.floor (rnd (IZR run_no / 1000)%R) * 1000 in
  Py.str sd_1 +:+ "/" +:+ Py.str sd_2 +:+ "/".

Definition quadrants : list string :=
  ["quadrant1"; "quadrant2"; "quadrant3"; "quadrant4"].

Definition entries_selection (histogram : histogram) (selection_type : string)
  : Py.result R :=
  let is2D := InheritsFromTH2 histogram in
  if bool_decide (selection_type ∈ quadrants) && negb is2D
  then Raise (Py.SystemExit 0)
  else
    let zero_x :=
      if is2D then ProjectionX_FindBin histogram 0 else FindBin histogram 0 in
    let zero_y :=
      if is2D then ProjectionY_FindBin histogram 0 else FindBin histogram 0 in
    if String.eqb selection_type "negative" then
      if is2D
      then Ok (Integral2 histogram 1 zero_x 1 (GetNbinsY histogram))
      else Ok (Integral histogram 1 zero_x)
    else if String.eqb selection_type "positive" then
      if is2D
      then Ok (Integral2 histogram zero_x (GetNbinsX histogram)
                 1 (GetNbinsY histogram))
      else Ok (Integral histogram zero_x (GetNbinsX histogram))
    else if String.eqb selection_type "quadrant1" then
      Ok (Integral2 histogram zero_x (GetNbinsX histogram)
            zero_y (GetNbinsY histogram))
    else if String.eqb selection_type "quadrant2" then
      Ok (Integral2 histogram 1 zero_x zero_y (GetNbinsY histogram))
    else if String.eqb selection_type "quadrant3" then
      Ok (Integral2 histogram 1 zero_x 1 zero_y)
    else if String.eqb selection_type "quadrant4" then
      Ok (Integral2 histogram zero_x (GetNbinsX histogram) 1 zero_y)
    else Raise (Py.SystemExit 0).

(** *** Module constants *)

Definition min_run_length : R := 300.
Definition require_offline : bool := false.
Definition publish_to_dqdb : bool := true.

(** *** Argument validation (lines 77-87)

    [sys.argv] holds the script name first.  The outcome is what was
    printed and either the exit status or the parsed run range. *)

Inductive startup : Type :=
| Exit (printed : list string) (status : Z)
| Uncaught (e : Py.exn)
| Proceed (report_type : string) (run_lower run_upper : Z).

Definition validate_arguments (argv : list string) : startup :=
  if bool_decide (length argv < 4)%nat then
    Exit ["Lower and upper run number ranges must be specified, as well as the options"] 0
  else
    let report_type :=
      if bool_decide (length argv = 5%nat)
      then default "unspecified" (argv !! 4%nat) else "unspecified" in
    match Py.int (default "" (argv !! 1%nat)) with
    | Raise e => Uncaught e
    | Ok run_lower =>
        match Py.int (default "" (argv !! 2%nat)) with
        | Raise e => Uncaught e
        | Ok run_upper =>
            if bool_decide (run_upper < run_lower) then
              Exit ["The upper run number must be higher than the lower run number"] 0
            else Proceed report_type run_lower run_upper
        end
    end.

(** *** Metric extraction (lines 215-294)

    One pass of the loop over the configured locations.  [length] is
    [runs_info["length"][-1]], [temp_counts] the values extracted so far
    for this run, and [leaked] the pair [this_count], [this_count_err]
    left bound by an earlier pass of the loop ([None] while unbound): when
    no branch matches the method, the loop appends those again. *)

Definition directional : list string :=
  ["quadrant1"; "quadrant2"; "quadrant3"; "quadrant4"; "negative"; "positive"].

Definition hotspot_mean (populated_regions : gmap string roi) (length : R)
    (run_object : histogram) : Py.result (R * R) :=
  let sensor_key := Py.replace "VPClusterMapOn" "" (GetName run_object) in
  match populated_regions !! sensor_key with
  | None => Ok (0, 0)%R
  | Some roi =>
      if bool_decide (roi_x roi = []) || bool_decide (roi_y roi = [])
      then Ok (0, 0)%R
      else
        x0 ← Py.index (roi_x roi) 0;
        let start_x_bin := GetXaxis_FindBin run_object (IZR x0) in
        x1 ← Py.index (roi_x roi) 1;
        let end_x_bin := GetXaxis_FindBin run_object (IZR x1) in
        y0 ← Py.index (roi_y roi) 0;
        let start_y_bin := GetYaxis_FindBin run_object (IZR y0) in
        y1 ← Py.index (roi_y roi) 1;
        let end_y_bin := GetYaxis_FindBin run_object (IZR y1) in
        let n_bins_in_roi :=
          (end_x_bin - start_x_bin + 1) * (end_y_bin - start_y_bin + 1) in
        let integral :=
          Integral2 run_object start_x_bin end_x_bin start_y_bin end_y_bin in
        if bool_decide (0 < n_bins_in_roi) && bool_decide (0 < integral)%R
        then
          let mean_occupancy := (integral / IZR n_bins_in_roi)%R in
          let mean_occupancy_err := (sqrt integral / IZR n_bins_in_roi)%R in
          this_count ← Py.div mean_occupancy length;
          this_count_err ← Py.div mean_occupancy_err length;
          Ok (this_count, this_count_err)
        else Ok (0, 0)%R
  end.

Definition bin_method (length : R) (run_object : histogram) (method : string)
    (temp_counts : list R) : Py.result (R * R) :=
  let binslist := Py.split "bin" method in
  b ← Py.index binslist 1;
  bin ← Py.int b;
  let raw_count := GetBinContent run_object bin in
  if bool_decide (2 < List.length binslist)%nat then
    b2 ← Py.index binslist 2;
    ref_bin ← Py.int b2;
    let ref_count := GetBinContent run_object ref_bin in
    this_count ← Py.div raw_count ref_count;
    inv_raw ← Py.div 1 raw_count;
    inv_ref ← Py.div 1 ref_count;
    variance ← Py.div ((inv_raw + inv_ref) * raw_count) ref_count;
    this_count_err ← Py.sqrt variance;
    Ok (this_count, this_count_err)
  else
    this_count ← Py.div raw_count length;
    previous ← Py.index_last temp_counts;
    root ← Py.sqrt raw_count;
    this_count_err ← Py.div previous root;
    Ok (this_count, this_count_err).

Definition extract (populated_regions : gmap string roi) (length : R)
    (run_object : histogram) (method : string) (temp_counts : list R)
    (leaked : option (R * R)) : Py.result (R * R) :=
  if String.eqb method "raw" then
    let raw_count := GetEntries run_object in
    this_count ← Py.div raw_count length;
    root ← Py.sqrt raw_count;
    this_count_err ← Py.div root length;
    Ok (this_count, this_count_err)
  else if String.eqb method "mean" then
    Ok (GetMean run_object, GetMeanError run_object)
  else if String.eqb method "RMS" then
    Ok (GetRMS run_object, GetRMSError run_object)
  else if bool_decide (method ∈ directional) then
    raw_count ← entries_selection run_object method;
    this_count ← Py.div raw_count length;
    previous ← Py.index_last temp_counts;
    root ← Py.sqrt raw_count;
    this_count_err ← Py.div previous root;
    Ok (this_count, this_count_err)
  else if String.eqb method "hotspot_mean" then
    hotspot_mean populated_regions length run_object
  else if Py.contains "bin" method then
    bin_method length run_object method temp_counts
  else
    match leaked with
    | Some previous_pass => Ok previous_pass
    | None => Raise Py.NameError
    end.

(** *** Run admission (lines 157-196)

    The sequence takes [TFile.Open] to hand back a file: the script has no
    test of its own for a saveset ROOT cannot open ([rw_zombie], which the
    sibling script tests) and ends at [TestBit] on such a file; statements
    that depend on it assume [rw_zombie w = false]. *)

Definition admission (w : run_world) (run : Z) : list event * verdict :=
  match rw_state w with
  | None => ([], Reject InvalidInfo)
  | Some state =>
      if String.eqb state "CREATED" then ([], Reject NotFinalized)
      else if require_offline && negb (String.eqb (rw_destination w) "OFFLINE")
      then ([], Reject WrongDestination)
      else
        let lookup :=
          if rw_exists w then [PathExists run]
          else [PathExists run; CreateSaveset run; PathExists run] in
        if negb (rw_exists w) && negb (rw_exists_after_request w)
        then (lookup, Reject NoData)
        else
          let run_length := (rw_end w - rw_start w)%R in
          if bool_decide (run_length < min_run_length)%R
          then (lookup, Reject TooShort)
          else if rw_recovered w
          then (lookup ++ [OpenFile run], Reject CrashRecovered)
          else (lookup ++ [OpenFile run], Admit run_length)
  end.

(** *** Series accumulation (lines 296-321)

    [combine] gives the point appended to [options["counts"]] and
    [options["errors"]] and whether it is handed to [save_in_dqdb];
    [None] when the type is neither [absolute] nor [ratio], where nothing
    is appended. *)

Record point : Type := { value : R; error : R; publish : bool }.

Definition combine (type : string) (temp_counts temp_errors : list R)
  : Py.result (option point) :=
  if String.eqb type "absolute" then
    count ← Py.index temp_counts 0;
    err ← Py.index temp_errors 0;
    Ok (Some {| value := count; error := err; publish := publish_to_dqdb |})
  else if String.eqb type "ratio" then
    count0 ← Py.index temp_counts 0;
    unphysical ←
      (if bool_decide (count0 = 0%R) then Ok true
       else count1 ← Py.index temp_counts 1; Ok (bool_decide (count1 = 0%R)));
    if unphysical : bool then
      Ok (Some {| value := 0; error := 0; publish := false |})
    else
      count1 ← Py.index temp_counts 1;
      this_ratio ← Py.div count0 (1.0 * count1);
      err0 ← Py.index temp_errors 0;
      rel0 ← Py.div err0 count0;
      err1 ← Py.index temp_errors 1;
      rel1 ← Py.div err1 count1;
      root ← Py.sqrt (rel0 ^ 2 + rel1 ^ 2);
      Ok (Some {| value := this_ratio; error := this_ratio * root;
                  publish := publish_to_dqdb |})
  else Ok None.

(** *** The loop over the runs (lines 135-321) *)

Record options : Type := {
  name : string;
  type : string;
  locations : list string;
  method : list string;
  y_range : option (list R)
}.

(** [runs_info], the two lists of [options] the loop appends to, the
    calls of [save_in_dqdb], the variables a pass of the extraction loop
    leaves bound, and the effects of the admission sequences. *)
Record state : Type := {
  numbers : list Z;
  lengths : list R;
  counts : list R;
  errors : list R;
  published : list (Z * R * R);
  leaked : option (R * R);
  effects : list event
}.

Definition initial : state :=
  {| numbers := []; lengths := []; counts := []; errors := [];
     published := []; leaked := None; effects := [] |}.

Fixpoint extract_all (populated_regions : gmap string roi) (length : R)
    (objects : gmap string histogram) (methods : list string) (i : nat)
    (locations : list string) (temp_counts temp_errors : list R)
    (leaked : option (R * R))
  : Py.result (list R * list R * option (R * R)) :=
  match locations with
  | [] => Ok (temp_counts, temp_errors, leaked)
  | location :: rest =>
      method ← Py.index methods i;
      run_object ←
        match objects !! location with
        | Some object => Ok object
        | None => Raise Py.AttributeError
        end;
      sample ← extract populated_regions length run_object method
                 temp_counts leaked;
      extract_all populated_regions length objects methods (S i) rest
        (temp_counts ++ [sample.1]) (temp_errors ++ [sample.2]) (Some sample)
  end.

Definition process_run (options : options)
    (populated_regions : gmap string roi) (w : run_world) (run : Z)
    (st : state) : Py.result state :=
  let '(trace, decision) := admission w run in
  match decision with
  | Reject _ =>
      Ok {| numbers := numbers st; lengths := lengths st;
            counts := counts st; errors := errors st;
            published := published st; leaked := leaked st;
            effects := effects st ++ trace |}
  | Admit run_length =>
      let length := (run_length / 3600)%R in
      let numbers' := numbers st ++ [run] in
      let lengths' := lengths st ++ [length] in
      if negb (forallb (λ location,
                          bool_decide (is_Some (rw_objects w !! location)))
                 (locations options))
      then
        Ok {| numbers := numbers'; lengths := lengths';
              counts := counts st; errors := errors st;
              published := published st; leaked := leaked st;
              effects := effects st ++ trace |}
      else
        '(temp_counts, temp_errors, leaked') ←
          extract_all populated_regions length (rw_objects w)
            (method options) 0 (locations options) [] [] (leaked st);
        combined ← combine (type options) temp_counts temp_errors;
        match combined with
        | None =>
            Ok {| numbers := numbers'; lengths := lengths';
                  counts := counts st; errors := errors st;
                  published := published st; leaked := leaked';
                  effects := effects st ++ trace |}
        | Some p =>
            Ok {| numbers := numbers'; lengths := lengths';
                  counts := counts st ++ [value p];
                  errors := errors st ++ [error p];
                  published :=
                    if publish p
                    then published st ++ [(run, value p, error p)]
                    else published st;
                  leaked := leaked';
                  effects := effects st ++ trace |}
        end
  end.

(** [range(run_lower, run_upper + 1)]. *)
Definition run_range (run_lower run_upper : Z) : list Z :=
  (λ i : nat, run_lower + Z.of_nat i) <$> seq 0 (Z.to_nat (run_upper + 1 - run_lower)).

Fixpoint main_loop (options : options) (populated_regions : gmap string roi)
    (world : Z → run_world) (runs : list Z) (st : state) : Py.result state :=
  match runs with
  | [] => Ok st
  | run :: rest =>
      st' ← process_run options populated_regions (world run) run st;
      main_loop options populated_regions world rest st'
  end.

(** *** The local plot (lines 331-372)

    [output_plot] has one bin per entry of [runs_info["numbers"]]; the
    fill loop runs over [options["counts"]]. *)

Record plot : Type := {
  bin_content : list R;
  bin_error : list R;
  bin_label : list string
}.

Definition new_plot (nbins : nat) : plot :=
  {| bin_content := replicate nbins 0%R; bin_error := replicate nbins 0%R;
     bin_label := replicate nbins "" |}.

Fixpoint fill_plot (numbers : list Z) (errors : list R) (i : nat)
    (counts : list R) (output_plot : plot) : Py.result plot :=
  match counts with
  | [] => Ok output_plot
  | entry :: rest =>
      err ← Py.index errors i;
      number ← Py.index numbers i;
      fill_plot numbers errors (S i) rest
        {| bin_content := <[i := entry]> (bin_content output_plot);
           bin_error := <[i := err]> (bin_error output_plot);
           bin_label := <[i := Py.str number]> (bin_label output_plot) |}
  end.

(** [GetMinimum] and [GetMaximum] of the plot: the extreme bin contents. *)
Definition GetMinimum (bins : list R) : R :=
  match bins with
  | [] => 0%R
  | b :: rest => foldl Rmin b rest
  end.

Definition GetMaximum (bins : list R) : R :=
  match bins with
  | [] => 0%R
  | b :: rest => foldl Rmax b rest
  end.

(** The range the y axis is given, from [SetMinimum] and [SetMaximum] or
    from [SetRangeUser].  The sum of the bins, the mean and the products
    are floats: each operation is rounded by [rnd]. *)
Definition y_axis_range (rnd : R → R) (y_range : option (list R))
    (bins : list R) : Py.result (R * R) :=
  match y_range with
  | Some y_range =>
      low ← Py.index y_range 0;
      high ← Py.index y_range 1;
      Ok (low, high)
  | None =>
      let output_plot_minimum := GetMinimum bins in
      let total := foldl (λ sum content, rnd (sum + content)%R) 0%R bins in
      quotient ← Py.div total (rnd (1.0 * INR (List.length bins))%R);
      let mean := rnd quotient in
      let output_plot_maximum :=
        if bool_decide (GetMaximum bins < rnd (5 * mean))%R
        then GetMaximum bins else mean in
      if bool_decide (0 < output_plot_minimum)%R
      then Ok (0%R, rnd (1.5 * output_plot_maximum)%R)
      else
        let output_plot_maximum := GetMaximum bins in
        if bool_decide (0 < output_plot_maximum)%R
        then Ok (rnd (1.5 * output_plot_minimum)%R,
                 rnd (1.5 * output_plot_maximum)%R)
        else Ok (rnd (1.5 * output_plot_minimum)%R,
                 rnd (0.5 * output_plot_maximum)%R)
  end.

End Occupancies.

(** ** plot_pseudo_efficiencies.py *)

Module PseudoEfficiencies.

Definition min_run_length : R := 300.0.
Definition require_offline : bool := false.

(** [run_no/10000] and [run_no/1000] are floats: the quotients of the two
    integers, rounded by [rnd]. *)
Definition run_dir_from_run_no (rnd : R → R) (run_no : Z) : string :=
  let sd_1 := Py.floor (rnd (IZR run_no / 10000)%R) * 10000 in
  let sd_2 := Py.floor (rnd (IZR run_no / 1000)%R) * 1000 in
  Py.str sd_1 +:+ "/" +:+ Py.str sd_2 +:+ "/".

Inductive startup : Type :=
| Exit (printed : list string) (status : Z)
| Proceed (run_lower run_upper : Z).

Definition usage : list string :=
  ["Usage: python3 plot_trends_publish_multi.py <run_lower> <run_upper> <options_path>";
   "Example: python3 plot_trends_publish_multi.py 310000 310999 tracking/publish_velo_all_sensors"].

Definition usage_and_exit (printed : list string) : startup :=
  Exit (printed ++ usage) 1.

(** Lines 68-80. *)
Definition validate_arguments (argv : list string) : startup :=
  if bool_decide (length argv < 4)%nat then usage_and_exit []
  else
    match Py.int (default "" (argv !! 1%nat)),
          Py.int (default "" (argv !! 2%nat)) with
    | Ok run_lower, Ok run_upper =>
        if bool_decide (run_upper < run_lower) then
          Exit ["Upper run number must be >= lower run number."] 1
        else Proceed run_lower run_upper
    | _, _ => usage_and_exit ["Run numbers must be integers."]
    end.

(** Lines 131-170. *)
Definition admission (w : run_world) (run : Z) : list event * verdict :=
  if bool_decide (rw_state w = Some "CREATED") then ([], Reject NotFinalized)
  else if require_offline && negb (String.eqb (rw_destination w) "OFFLINE")
  then ([], Reject WrongDestination)
  else
    let run_length := (rw_end w - rw_start w)%R in
    if bool_decide (run_length < min_run_length)%R
    then ([], Reject TooShort)
    else
      let lookup :=
        if rw_exists w then [PathExists run]
        else [PathExists run; CreateSaveset run; PathExists run] in
      if negb (rw_exists w) && negb (rw_exists_after_request w)
      then (lookup, Reject NoData)
      else if rw_zombie w
      then (lookup ++ [OpenFile run], Reject Unopenable)
      else if rw_recovered w
      then (lookup ++ [OpenFile run], Reject CrashRecovered)
      else (lookup ++ [OpenFile run], Admit run_length).

End PseudoEfficiencies.

(** ** Concrete inputs used by the examples below *)

Module Samples.

Import Occupancies.

(** [TAxis::FindBin] on an axis of [nbins] equal bins over [xmin, xmax):
    bin 0 is the underflow and bin [nbins + 1] the overflow. *)
Definition axis_bin (nbins : Z) (xmin xmax x : R) : Z :=
  if decide (x < xmin)%R then 0
  else if decide (x < xmax)%R
  then 1 + Zfloor (IZR nbins * (x - xmin) / (xmax - xmin))
  else nbins + 1.

(** A histogram of [nbinsx] bins (by [nbinsy] when two-dimensional) that
    answers [total] to every integral, [content] for every bin and [mean]
    for its mean. *)
Definition histogram_of (name : string) (is2D : bool) (nbinsx nbinsy : Z)
    (xmin xmax ymin ymax : R) (total content mean : R) : histogram :=
  {| GetName := name;
     InheritsFromTH2 := is2D;
     GetEntries := total;
     GetMean := mean; GetMeanError := 0; GetRMS := 0; GetRMSError := 0;
     GetNbinsX := nbinsx;
     GetNbinsY := nbinsy;
     FindBin := axis_bin nbinsx xmin xmax;
     ProjectionX_FindBin := axis_bin nbinsx xmin xmax;
     ProjectionY_FindBin := axis_bin nbinsy ymin ymax;
     GetXaxis_FindBin := axis_bin nbinsx xmin xmax;
     GetYaxis_FindBin := axis_bin nbinsy ymin ymax;
     GetBinContent := λ _, content;
     GetBinError := λ _, 0%R;
     Integral := λ _ _, total;
     Integral2 := λ _ _ _ _, total |}.

(** A one-dimensional residual distribution over [-1, 1). *)
Definition residuals : histogram :=
  histogram_of "residuals" false 10 1 (-1) 1 0 1 7 3 0.25.

(** A two-dimensional cluster map of 5 by 5 bins over [0, 12.5). *)
Definition cluster_map : histogram :=
  histogram_of "VPClusterMapOnMod0Sens0" true 5 5 0 12.5 0 12.5 100 4 6.

(** Region tables for the cluster map: the square [0, 10] by [0, 10], and
    the same with the bounds of [x] exchanged. *)
Definition square : gmap string roi :=
  {[ "Mod0Sens0" := {| roi_x := [0; 10]; roi_y := [0; 10] |} ]}.

Definition exchanged : gmap string roi :=
  {[ "Mod0Sens0" := {| roi_x := [10; 0]; roi_y := [0; 10] |} ]}.

(** A finished run of [seconds] seconds whose archive is in place and
    holds [objects]. *)
Definition finished (seconds : R) (objects : gmap string histogram)
  : run_world :=
  {| rw_state := Some "ENDED"; rw_destination := "OFFLINE";
     rw_start := 0; rw_end := seconds;
     rw_exists := true; rw_exists_after_request := true;
     rw_zombie := false; rw_recovered := false;
     rw_objects := objects |}.

(** A finished run of [seconds] seconds whose archive is missing and is
    not created on request. *)
Definition unarchived (seconds : R) : run_world :=
  {| rw_state := Some "ENDED"; rw_destination := "OFFLINE";
     rw_start := 0; rw_end := seconds;
     rw_exists := false; rw_exists_after_request := false;
     rw_zombie := false; rw_recovered := false;
     rw_objects := ∅ |}.

(** A trend of the mean of one histogram. *)
Definition mean_trend : options :=
  {| name := "residual_mean"; type := "absolute";
     locations := ["Monitor/residuals"]; method := ["mean"];
     y_range := None |}.

(** Run 100 lacks the histogram, run 101 holds it; both last an hour. *)
Definition two_runs (run : Z) : run_world :=
  if decide (run = 100) then finished 3600 ∅
  else finished 3600 {[ "Monitor/residuals" := residuals ]}.

End Samples.

(** ** Shapes of the accumulated series *)

Module Series.

Import Occupancies.

(** The lists the loop of [plot_occupancies.py] appends to go together:
    one error per value, one run length per run number, no more values than
    run numbers and no more calls of [save_in_dqdb] than values. *)
Definition aligned (st : state) : Prop :=
  length (counts st) = length (errors st)
  ∧ length (numbers st) = length (lengths st)
  ∧ (length (counts st) ≤ length (numbers st))%nat
  ∧ (length (published st) ≤ length (counts st))%nat.

(** The run numbers of the calls of [save_in_dqdb]. *)
Definition published_runs (st : state) : list Z :=
  (λ call : Z * R * R, call.1.1) <$> published st.

End Series.

(** ** Further concrete inputs *)

Module MoreSamples.

Import Occupancies Samples.

(** A one-dimensional histogram of 10 bins over [-1, 1) with one entry in
    every bin: the integral over the bins [a, b] is their number. *)
Definition unit_bins : histogram :=
  {| GetName := "unit_bins";
     InheritsFromTH2 := false;
     GetEntries := 10;
     GetMean := 0; GetMeanError := 0; GetRMS := 0; GetRMSError := 0;
     GetNbinsX := 10;
     GetNbinsY := 1;
     FindBin := axis_bin 10 (-1) 1;
     ProjectionX_FindBin := axis_bin 10 (-1) 1;
     ProjectionY_FindBin := λ _, 1;
     GetXaxis_FindBin := axis_bin 10 (-1) 1;
     GetYaxis_FindBin := λ _, 1;
     GetBinContent := λ _, 1%R;
     GetBinError := λ _, 1%R;
     Integral := λ a b, IZR (b - a + 1);
     Integral2 := λ a b _ _, IZR (b - a + 1) |}.

End MoreSamples.

(** * Properties *)

Import Occupancies.
Import Samples.
Import Series.
Import MoreSamples.

(** ** Arithmetic of the Python runtime *)

Section Runtime.

Lemma floor_quotient (n d : Z) :
  0 < d → Py.floor (IZR n / IZR d) = n / d.
Proof.
  intros Hd. unfold Py.floor. apply Zfloor_eq.
  assert (Hd' : (0 < IZR d)%R) by (apply IZR_lt; lia).
  pose proof (Z.div_mod n d ltac:(lia)) as Hn.
  pose proof (Z.mod_pos_bound n d Hd) as [Hlo Hhi].
  assert (Hn' : IZR n = (IZR d * IZR (n / d) + IZR (n mod d))%R).
  { rewrite <- mult_IZR, <- plus_IZR. now f_equal. }
  apply IZR_le in Hlo. apply IZR_lt in Hhi.
  split.
  - apply Rmult_le_reg_r with (IZR d); [done |].
    unfold Rdiv. rewrite Rmult_assoc, Rinv_l by lra. lra.
  - apply Rmult_lt_reg_r with (IZR d); [done |].
    unfold Rdiv. rewrite Rmult_assoc, Rinv_l by lra. lra.
Qed.

Lemma div_nonzero (x y : R) : y ≠ 0%R → Py.div x y = Ok (x / y)%R.
Proof. intros Hy. unfold Py.div. now destruct (Req_dec_T y 0). Qed.

Lemma div_zero (x : R) : Py.div x 0 = Raise Py.ZeroDivisionError.
Proof. unfold Py.div. now destruct (Req_dec_T 0 0). Qed.

Lemma sqrt_nonnegative (x : R) : (0 <= x)%R → Py.sqrt x = Ok (sqrt x).
Proof. intros Hx. unfold Py.sqrt. destruct (Rlt_dec x 0); [lra | done]. Qed.

Lemma index_last_snoc {A} (l : list A) (a : A) :
  Py.index_last (l ++ [a]) = Ok a.
Proof. unfold Py.index_last. now rewrite last_snoc. Qed.

Lemma index_last_nil {A} : Py.index_last (@nil A) = Raise Py.IndexError.
Proof. reflexivity. Qed.

Lemma split_go_contains (sep : string) (s cur : string) (skip : nat) :
  (2 ≤ length (Py.split_go sep skip cur s))%nat → Py.contains sep s = true.
Proof.
  revert cur skip. induction s as [| c s IH]; intros cur skip; cbn [Py.split_go].
  - cbn. lia.
  - cbn [Py.contains]. destruct skip as [| skip].
    + destruct (String.prefix sep (String c s)); [done |].
      intros Hlen. rewrite (IH _ _ Hlen). apply orb_true_r.
    + intros Hlen. rewrite (IH _ _ Hlen). apply orb_true_r.
Qed.

(** A string that [split] cuts in two or more pieces holds the separator. *)
Lemma split_contains (sep s : string) :
  (2 ≤ length (Py.split sep s))%nat → Py.contains sep s = true.
Proof. apply split_go_contains. Qed.

End Runtime.

(** ** Floats *)

Lemma identity_is_rounding : Float.rounding (λ x : R, x).
Proof. now split. Qed.

Lemma integer_is_binary64 (z : Z) :
  (Z.abs z < 2 ^ 53)%Z → Float.binary64 (IZR z).
Proof.
  intros Hz. exists z, 0. split; [cbn; lra | lia].
Qed.

(** The float just below the integer [k + 1], at the distance [2 ^ -14],
    resp. [2 ^ -10]. *)
Lemma below_next_integer_14 (k : Z) :
  (0 ≤ k < 2 ^ 38)%Z → Float.binary64 (IZR k + 1 - / 16384).
Proof.
  intros Hk. exists ((k + 1) * 16384 - 1), (-14). split; [| lia].
  rewrite minus_IZR, mult_IZR, plus_IZR. cbn [powerRZ].
  replace (2 ^ Pos.to_nat 14)%R with 16384%R
    by (change (Pos.to_nat 14) with 14%nat; simpl; lra).
  field.
Qed.

Lemma below_next_integer_10 (k : Z) :
  (0 ≤ k < 2 ^ 42)%Z → Float.binary64 (IZR k + 1 - / 1024).
Proof.
  intros Hk. exists ((k + 1) * 1024 - 1), (-10). split; [| lia].
  rewrite minus_IZR, mult_IZR, plus_IZR. cbn [powerRZ].
  replace (2 ^ Pos.to_nat 10)%R with 1024%R
    by (change (Pos.to_nat 10) with 10%nat; simpl; lra).
  field.
Qed.

(** The floor of a rounded quotient of integers is the integer quotient as
    long as a float lies between the exact quotient and the next integer. *)
Lemma floor_of_rounded_quotient (rnd : R → R) (n d : Z) (eps : R) :
  Float.rounding rnd →
  0 < d →
  (0 < eps <= / IZR d)%R →
  Float.binary64 (IZR (n / d)) →
  Float.binary64 (IZR (n / d) + 1 - eps) →
  Py.floor (rnd (IZR n / IZR d)%R) = n / d.
Proof.
  intros [Hmono Hexact] Hd [Heps Hsmall] Hlow Hhigh.
  unfold Py.floor. apply Zfloor_eq.
  assert (Hd' : (0 < IZR d)%R) by (apply IZR_lt; lia).
  pose proof (Z.div_mod n d ltac:(lia)) as Hn.
  pose proof (Z.mod_pos_bound n d Hd) as [Hlo Hhi].
  assert (Hn' : IZR n = (IZR d * IZR (n / d) + IZR (n mod d))%R).
  { rewrite <- mult_IZR, <- plus_IZR. now f_equal. }
  assert (Hrem : (IZR (n mod d) <= IZR d - 1)%R).
  { rewrite <- minus_IZR. apply IZR_le. lia. }
  apply IZR_le in Hlo.
  assert (Hquot : (IZR n / IZR d = IZR (n / d) + IZR (n mod d) / IZR d)%R).
  { rewrite Hn'. field. lra. }
  assert (Hfrac : (0 <= IZR (n mod d) / IZR d <= 1 - / IZR d)%R).
  { split.
    - apply Rmult_le_pos; [done |]. left. now apply Rinv_0_lt_compat.
    - replace (1 - / IZR d)%R with ((IZR d - 1) / IZR d)%R by (field; lra).
      apply Rmult_le_compat_r; [| done]. left. now apply Rinv_0_lt_compat. }
  split.
  - rewrite <- (Hexact _ Hlow) at 1. apply Hmono. lra.
  - apply Rle_lt_trans with (IZR (n / d) + 1 - eps)%R; [| lra].
    rewrite <- (Hexact _ Hhigh). apply Hmono. lra.
Qed.

Lemma floor_of_rounded_10000 (rnd : R → R) (n : Z) :
  Float.rounding rnd → (0 ≤ n < 10 ^ 15)%Z →
  Py.floor (rnd (IZR n / 10000)%R) = n / 10000.
Proof.
  intros Hrnd Hn.
  assert (Hk : (0 ≤ n / 10000 < 2 ^ 38)%Z)
    by (Z.to_euclidean_division_equations; lia).
  apply (floor_of_rounded_quotient rnd n 10000 (/ 16384)); try done.
  - lra.
  - apply integer_is_binary64. lia.
  - now apply below_next_integer_14.
Qed.

Lemma floor_of_rounded_1000 (rnd : R → R) (n : Z) :
  Float.rounding rnd → (0 ≤ n < 10 ^ 15)%Z →
  Py.floor (rnd (IZR n / 1000)%R) = n / 1000.
Proof.
  intros Hrnd Hn.
  assert (Hk : (0 ≤ n / 1000 < 2 ^ 42)%Z)
    by (Z.to_euclidean_division_equations; lia).
  apply (floor_of_rounded_quotient rnd n 1000 (/ 1024)); try done.
  - lra.
  - apply integer_is_binary64. lia.
  - now apply below_next_integer_10.
Qed.

(** ** Shard directories *)

Lemma run_dir_shards (rnd : R → R) (run_no : Z) :
  Float.rounding rnd → (0 ≤ run_no < 10 ^ 15)%Z →
  run_dir_from_run_no rnd run_no =
    Py.str (run_no / 10000 * 10000) +:+ "/" +:+
    Py.str (run_no / 1000 * 1000) +:+ "/".
Proof.
  intros Hrnd Hrun. unfold run_dir_from_run_no.
  now rewrite floor_of_rounded_10000, floor_of_rounded_1000.
Qed.

(** C8: for a run number below 10^15, whose quotients by 10000 and 1000
    the rounding to a float cannot lift to the next integer, the shard
    directory of the run is the run number floored to a multiple of 10000,
    a slash, the run number floored to a multiple of 1000, and a slash,
    both numbers in decimal; the floors bracket the run number; both scripts
    compute the same directory; run 265911 is in [260000/265000/] and run
    9999 in [0/9000/]. *)
Theorem run_dir_from_run_no_spec (rnd : R → R) (run_no : Z) :
  Float.rounding rnd →
  (0 ≤ run_no < 10 ^ 15)%Z →
  run_dir_from_run_no rnd run_no =
    Py.str (run_no / 10000 * 10000) +:+ "/" +:+
    Py.str (run_no / 1000 * 1000) +:+ "/"
  ∧ PseudoEfficiencies.run_dir_from_run_no rnd run_no =
      run_dir_from_run_no rnd run_no
  ∧ (run_no / 10000 * 10000 ≤ run_no / 1000 * 1000 ≤ run_no)%Z
  ∧ (run_no < run_no / 1000 * 1000 + 1000)%Z
  ∧ (run_no < run_no / 10000 * 10000 + 10000)%Z
  ∧ run_dir_from_run_no rnd 265911 = "260000/265000/"
  ∧ run_dir_from_run_no rnd 9999 = "0/9000/".
Proof.
  intros Hrnd Hrun.
  split; [now apply run_dir_shards |].
  split; [reflexivity |].
  repeat (split; [Z.to_euclidean_division_equations; lia |]).
  split; rewrite run_dir_shards by (done || lia); reflexivity.
Qed.

Lemma run_dir_from_run_no_spec_witness :
  run_dir_from_run_no (λ x : R, x) 265911 = "260000/265000/"
  ∧ PseudoEfficiencies.run_dir_from_run_no (λ x : R, x) 310999 =
      "310000/310000/".
Proof.
  destruct (run_dir_from_run_no_spec (λ x : R, x) 310999 identity_is_rounding)
    as (Hdir & Hsame & _ & _ & _ & Hexample & _); [lia |].
  split; [exact Hexample |]. rewrite Hsame, Hdir. reflexivity.
Defined.

(** ** Argument validation *)

(** C9: [plot_occupancies.py] started without its arguments, or with an
    upper run number below the lower one, prints its message and leaves with
    status 0; [plot_pseudo_efficiencies.py] leaves with status 1 on the
    same command lines. *)
Theorem occupancies_bad_arguments_exit_status :
  validate_arguments ["plot_occupancies.py"] =
    Exit ["Lower and upper run number ranges must be specified, as well as the options"] 0
  ∧ validate_arguments ["plot_occupancies.py"; "200"; "100"; "tracking/trend"] =
    Exit ["The upper run number must be higher than the lower run number"] 0
  ∧ PseudoEfficiencies.validate_arguments ["plot_pseudo_efficiencies.py"] =
    PseudoEfficiencies.Exit PseudoEfficiencies.usage 1
  ∧ PseudoEfficiencies.validate_arguments
      ["plot_pseudo_efficiencies.py"; "200"; "100"; "tracking/trend"] =
    PseudoEfficiencies.Exit ["Upper run number must be >= lower run number."] 1.
Proof. repeat split. Qed.

(** Every command line that is too short, and every run range that is
    upside down, leaves [plot_occupancies.py] with status 0. *)
Lemma occupancies_too_few_arguments (argv : list string) :
  (length argv < 4)%nat →
  ∃ printed, validate_arguments argv = Exit printed 0.
Proof.
  intros Hlen. unfold validate_arguments.
  rewrite bool_decide_eq_true_2 by done. eauto.
Qed.

Lemma occupancies_inverted_range (argv : list string) (lower upper : Z) :
  (4 ≤ length argv)%nat →
  Py.int (default "" (argv !! 1%nat)) = Ok lower →
  Py.int (default "" (argv !! 2%nat)) = Ok upper →
  upper < lower →
  ∃ printed, validate_arguments argv = Exit printed 0.
Proof.
  intros Hlen Hl Hu Hlt. unfold validate_arguments.
  rewrite bool_decide_eq_false_2 by lia. rewrite Hl, Hu.
  rewrite bool_decide_eq_true_2 by done. eauto.
Qed.

(** ** One run of the loop *)

Ltac run_bind := cbn [mbind Py.result_bind Py.bind].

Lemma all_locations_present (w : run_world) (locations : list string) :
  Forall (λ l, is_Some (rw_objects w !! l)) locations →
  forallb (λ location, bool_decide (is_Some (rw_objects w !! location)))
    locations = true.
Proof.
  intros Hall. apply forallb_forall. intros l Hl.
  apply bool_decide_eq_true_2. rewrite Forall_forall in Hall.
  apply Hall. now apply list_elem_of_In.
Qed.

Lemma admitted_run_length (w : run_world) (run : Z) (trace : list event)
    (run_length : R) :
  admission w run = (trace, Admit run_length) →
  (min_run_length <= run_length)%R ∧ (run_length / 3600 ≠ 0)%R.
Proof.
  unfold admission. intros Hadmit.
  destruct (rw_state w) as [state |]; [| done].
  destruct (String.eqb state "CREATED"); [done |].
  destruct (require_offline && _); [done |].
  destruct (negb (rw_exists w) && _); [done |].
  case_bool_decide as Hshort; [done |].
  destruct (rw_recovered w); [done |].
  injection Hadmit as _ <-.
  unfold min_run_length in *. split; lra.
Qed.

(** An admitted run whose locations are all present and whose samples
    combine to the point [p]. *)
Lemma process_run_admitted (options : options)
    (populated_regions : gmap string roi) (w : run_world) (run : Z)
    (st : state) (trace : list event) (run_length : R)
    (temp_counts temp_errors : list R) (leaked' : option (R * R)) (p : point) :
  admission w run = (trace, Admit run_length) →
  Forall (λ l, is_Some (rw_objects w !! l)) (locations options) →
  extract_all populated_regions (run_length / 3600) (rw_objects w)
    (method options) 0 (locations options) [] [] (leaked st) =
    Ok (temp_counts, temp_errors, leaked') →
  combine (type options) temp_counts temp_errors = Ok (Some p) →
  process_run options populated_regions w run st =
    Ok {| numbers := numbers st ++ [run];
          lengths := lengths st ++ [(run_length / 3600)%R];
          counts := counts st ++ [value p];
          errors := errors st ++ [error p];
          published :=
            if publish p then published st ++ [(run, value p, error p)]
            else published st;
          leaked := leaked';
          effects := effects st ++ trace |}.
Proof.
  intros Hadmit Hall Hextract Hcombine. unfold process_run. rewrite Hadmit.
  rewrite all_locations_present by done.
  cbn [negb]. rewrite Hextract. run_bind. rewrite Hcombine. now run_bind.
Qed.

(** An exception raised while the first location of an admitted run is
    extracted ends the loop over the runs. *)
Lemma first_extraction_raises (options : options)
    (populated_regions : gmap string roi) (world : Z → run_world) (run : Z)
    (rest : list Z) (st : state) (trace : list event) (run_length : R)
    (location : string) (others : list string) (h : histogram)
    (first_method : string) (methods : list string) (e : Py.exn) :
  admission (world run) run = (trace, Admit run_length) →
  locations options = location :: others →
  Forall (λ l, is_Some (rw_objects (world run) !! l)) (location :: others) →
  rw_objects (world run) !! location = Some h →
  method options = first_method :: methods →
  extract populated_regions (run_length / 3600) h first_method []
    (leaked st) = Raise e →
  main_loop options populated_regions world (run :: rest) st = Raise e.
Proof.
  intros Hadmit Hloc Hall Hobj Hmeth Hraise.
  cbn [main_loop]. unfold process_run. rewrite Hadmit, Hloc, Hmeth.
  rewrite all_locations_present by done.
  cbn [negb extract_all]. change (Py.index (first_method :: methods) 0)
    with (Ok first_method). run_bind. rewrite Hobj. run_bind.
  rewrite Hraise. now run_bind.
Qed.

(** ** Selections on one-dimensional histograms *)

Section OneDimensional.

Variable h : histogram.
Hypothesis one_dimensional : InheritsFromTH2 h = false.

Lemma quadrant_exits (selection_type : string) :
  selection_type ∈ quadrants →
  entries_selection h selection_type = Raise (Py.SystemExit 0).
Proof.
  intros Hq. unfold entries_selection.
  now rewrite one_dimensional, bool_decide_eq_true_2.
Qed.

Lemma negative_integrates :
  entries_selection h "negative" = Ok (Integral h 1 (FindBin h 0)).
Proof. unfold entries_selection. now rewrite one_dimensional. Qed.

Lemma positive_integrates :
  entries_selection h "positive" =
    Ok (Integral h (FindBin h 0) (GetNbinsX h)).
Proof. unfold entries_selection. now rewrite one_dimensional. Qed.

Lemma quadrant_extract_exits (populated_regions : gmap string roi)
    (length : R) (method : string) (temp_counts : list R)
    (leaked : option (R * R)) :
  method ∈ quadrants →
  extract populated_regions length h method temp_counts leaked =
    Raise (Py.SystemExit 0).
Proof.
  intros Hq. unfold extract.
  rewrite (quadrant_exits method Hq).
  unfold quadrants in Hq. set_unfold.
  destruct Hq as [-> | [-> | [-> | [-> | []]]]]; reflexivity.
Qed.

End OneDimensional.

(** C4, as the claim states it, fails: the selection [negative] on the
    one-dimensional histogram [residuals] returns its integral, 7. *)
Lemma negative_on_1D_returns_a_value :
  InheritsFromTH2 residuals = false
  ∧ "negative" ∈ directional
  ∧ entries_selection residuals "negative" = Ok 7%R.
Proof.
  split; [reflexivity |]. split; [unfold directional; set_solver |].
  reflexivity.
Qed.

(** C4, amended: on a one-dimensional histogram the selections quadrant1
    to quadrant4 return no value, [entries_selection] leaves the script
    through [sys.exit]; the selections negative and positive return the
    one-dimensional integral below, resp. above, the bin of zero; and when
    the histogram at the first location of an admitted run is extracted
    with a quadrant method, the loop over the runs ends there, whatever runs
    follow. *)
Theorem selection_on_1D_histogram (h : histogram) :
  InheritsFromTH2 h = false →
  (∀ selection_type, selection_type ∈ quadrants →
     entries_selection h selection_type = Raise (Py.SystemExit 0))
  ∧ entries_selection h "negative" = Ok (Integral h 1 (FindBin h 0))
  ∧ entries_selection h "positive" =
      Ok (Integral h (FindBin h 0) (GetNbinsX h))
  ∧ (∀ options populated_regions world run rest st trace run_length
       location others quadrant methods,
       admission (world run) run = (trace, Admit run_length) →
       locations options = location :: others →
       Forall (λ l, is_Some (rw_objects (world run) !! l)) (location :: others) →
       rw_objects (world run) !! location = Some h →
       method options = quadrant :: methods →
       quadrant ∈ quadrants →
       main_loop options populated_regions world (run :: rest) st =
         Raise (Py.SystemExit 0)).
Proof.
  intros H1D.
  split; [intros; now apply quadrant_exits |].
  split; [now apply negative_integrates |].
  split; [now apply positive_integrates |].
  intros options populated_regions world run rest st trace run_length
    location others quadrant methods Hadmit Hloc Hall Hobj Hmeth Hq.
  eapply first_extraction_raises; try done.
  now apply quadrant_extract_exits.
Qed.

Lemma selection_on_1D_histogram_witness :
  entries_selection residuals "quadrant2" = Raise (Py.SystemExit 0)
  ∧ main_loop
      {| name := "q"; type := "absolute"; locations := ["Monitor/residuals"];
         method := ["quadrant2"]; y_range := None |}
      ∅ two_runs [101; 102] initial = Raise (Py.SystemExit 0).
Proof.
  destruct (selection_on_1D_histogram residuals eq_refl)
    as (Hq & _ & _ & Hloop).
  split.
  - apply Hq. unfold quadrants. set_solver.
  - eapply (Hloop _ ∅ two_runs 101 [102] initial
              [PathExists 101; OpenFile 101] (3600 - 0)%R
              "Monitor/residuals" [] "quadrant2" []).
    + unfold admission, two_runs. simpl.
      rewrite bool_decide_eq_false_2; [reflexivity |].
      unfold min_run_length. lra.
    + reflexivity.
    + repeat constructor. unfold two_runs. simpl.
      rewrite lookup_singleton_eq. eauto.
    + unfold two_runs. simpl. apply lookup_singleton_eq.
    + reflexivity.
    + unfold quadrants. set_solver.
Defined.

(** ** The error of the directional and single-bin methods *)

Lemma extract_directional (populated_regions : gmap string roi) (length : R)
    (h : histogram) (method : string) (temp_counts : list R)
    (leaked : option (R * R)) :
  method ∈ directional →
  extract populated_regions length h method temp_counts leaked =
    (raw_count ← entries_selection h method;
     this_count ← Py.div raw_count length;
     previous ← Py.index_last temp_counts;
     root ← Py.sqrt raw_count;
     this_count_err ← Py.div previous root;
     Ok (this_count, this_count_err)).
Proof.
  intros Hm. unfold directional in Hm.
  repeat (apply elem_of_cons in Hm as [-> | Hm]; [reflexivity |]).
  now apply elem_of_nil in Hm.
Qed.

Lemma extract_bin (populated_regions : gmap string roi) (length : R)
    (h : histogram) (method : string) (temp_counts : list R)
    (leaked : option (R * R)) :
  Py.contains "bin" method = true →
  extract populated_regions length h method temp_counts leaked =
    bin_method length h method temp_counts.
Proof.
  intros Hbin. unfold extract.
  destruct (String.eqb_spec method "raw") as [-> | _]; [discriminate |].
  destruct (String.eqb_spec method "mean") as [-> | _]; [discriminate |].
  destruct (String.eqb_spec method "RMS") as [-> | _]; [discriminate |].
  case_bool_decide as Hdir.
  { unfold directional in Hdir.
    repeat (apply elem_of_cons in Hdir as [-> | Hdir]; [discriminate |]).
    now apply elem_of_nil in Hdir. }
  destruct (String.eqb_spec method "hotspot_mean") as [-> | _]; [discriminate |].
  now rewrite Hbin.
Qed.

(** What the two branches compute once the raw count is known. *)
Lemma coupled_error (length raw_count : R) (temp_counts : list R) :
  length ≠ 0%R → (0 < raw_count)%R →
  (this_count ← Py.div raw_count length;
   previous ← Py.index_last temp_counts;
   root ← Py.sqrt raw_count;
   this_count_err ← Py.div previous root;
   Ok (this_count, this_count_err)) =
  match last temp_counts with
  | Some previous => Ok (raw_count / length, previous / sqrt raw_count)%R
  | None => Raise Py.IndexError
  end.
Proof.
  intros Hlen Hraw. rewrite div_nonzero by done. run_bind.
  unfold Py.index_last. destruct (last temp_counts) as [previous |]; [| done].
  run_bind. rewrite sqrt_nonnegative by lra. run_bind.
  rewrite div_nonzero; [done |].
  pose proof (sqrt_lt_R0 raw_count Hraw). lra.
Qed.

Lemma bin_method_single (length : R) (h : histogram) (method prefix N : string)
    (bin : Z) (temp_counts : list R) :
  Py.split "bin" method = [prefix; N] →
  Py.int N = Ok bin →
  bin_method length h method temp_counts =
    (this_count ← Py.div (GetBinContent h bin) length;
     previous ← Py.index_last temp_counts;
     root ← Py.sqrt (GetBinContent h bin);
     this_count_err ← Py.div previous root;
     Ok (this_count, this_count_err)).
Proof.
  intros Hsplit Hint. unfold bin_method. rewrite Hsplit.
  change (Py.index [prefix; N] 1) with (Ok N). run_bind. rewrite Hint. run_bind.
  rewrite bool_decide_eq_false_2 by (simpl; lia). reflexivity.
Qed.

(** C1: for a method among negative, positive, quadrant1 to quadrant4, and
    for a single-bin method [binN], when a value has already been extracted
    for the run and the raw count (the integral, resp. the content of bin
    N) is positive, the sample is the raw count over the run length with, as
    error, the previously extracted value over the square root of the raw
    count. *)
Theorem error_reuses_previous_value (populated_regions : gmap string roi)
    (length : R) (h : histogram) (method : string) (earlier : list R)
    (previous raw_count : R) (leaked : option (R * R)) :
  length ≠ 0%R →
  (0 < raw_count)%R →
  (method ∈ directional ∧ entries_selection h method = Ok raw_count)
  ∨ (∃ prefix N bin,
       Py.split "bin" method = [prefix; N]
       ∧ Py.int N = Ok bin
       ∧ GetBinContent h bin = raw_count) →
  extract populated_regions length h method (earlier ++ [previous]) leaked =
    Ok (raw_count / length, previous / sqrt raw_count)%R.
Proof.
  intros Hlen Hraw [[Hdir Hsel] | (prefix & N & bin & Hsplit & Hint & <-)].
  - rewrite extract_directional by done. rewrite Hsel. run_bind.
    rewrite coupled_error by done. now rewrite last_snoc.
  - rewrite extract_bin by (apply split_contains; now rewrite Hsplit).
    rewrite (bin_method_single _ _ _ prefix N bin) by done.
    rewrite coupled_error by done. now rewrite last_snoc.
Qed.

Lemma error_reuses_previous_value_witness :
  extract ∅ 2 cluster_map "quadrant1" [5%R; 8%R] None =
    Ok (100 / 2, 8 / sqrt 100)%R
  ∧ extract ∅ 2 residuals "bin4" [5%R; 8%R] None = Ok (3 / 2, 8 / sqrt 3)%R.
Proof.
  split.
  - apply (error_reuses_previous_value ∅ 2 cluster_map "quadrant1" [5%R] 8 100 None).
    + lra.
    + lra.
    + left. split; [unfold directional; set_solver | reflexivity].
  - apply (error_reuses_previous_value ∅ 2 residuals "bin4" [5%R] 8 3 None).
    + lra.
    + lra.
    + right. exists "", "4", 4. repeat split; reflexivity.
Defined.

(** With nothing extracted yet, the two branches produce no sample. *)
Lemma first_extraction_no_sample (populated_regions : gmap string roi)
    (length : R) (h : histogram) (method : string) (leaked : option (R * R))
    (sample : R * R) :
  (method ∈ directional ∨ ∃ prefix N, Py.split "bin" method = [prefix; N]) →
  extract populated_regions length h method [] leaked ≠ Ok sample.
Proof.
  intros [Hdir | (prefix & N & Hsplit)].
  - rewrite extract_directional by done.
    destruct (entries_selection h method); run_bind; [| done].
    destruct (Py.div _ _); now run_bind.
  - rewrite extract_bin by (apply split_contains; now rewrite Hsplit).
    unfold bin_method. rewrite Hsplit.
    change (Py.index [prefix; N] 1) with (Ok N). run_bind.
    destruct (Py.int N); run_bind; [| done].
    rewrite bool_decide_eq_false_2 by (simpl; lia).
    destruct (Py.div _ _); now run_bind.
Qed.

(** Once the raw count is there, they raise [IndexError]. *)
Lemma first_extraction_index_error (populated_regions : gmap string roi)
    (length : R) (h : histogram) (method : string) (leaked : option (R * R)) :
  length ≠ 0%R →
  (method ∈ directional ∧ ∃ raw_count, entries_selection h method = Ok raw_count)
  ∨ (∃ prefix N bin, Py.split "bin" method = [prefix; N]
                     ∧ Py.int N = Ok bin) →
  extract populated_regions length h method [] leaked = Raise Py.IndexError.
Proof.
  intros Hlen [[Hdir [raw_count Hsel]] | (prefix & N & bin & Hsplit & Hint)].
  - rewrite extract_directional by done. rewrite Hsel. run_bind.
    rewrite div_nonzero by done. now run_bind.
  - rewrite extract_bin by (apply split_contains; now rewrite Hsplit).
    rewrite (bin_method_single _ _ _ prefix N bin) by done.
    rewrite div_nonzero by done. now run_bind.
Qed.

(** C10: when the method of the first configured location is one of
    negative, positive, quadrant1 to quadrant4, or a single-bin method,
    nothing has been extracted yet for the run and the extraction returns no
    sample: once the raw count is obtained, reading the last of the
    extracted values raises [IndexError], for every admitted run, and the
    loop over the runs ends with that exception. *)
Theorem first_location_error_is_undefined (h : histogram) (method : string) :
  (∀ populated_regions length leaked sample,
     (method ∈ directional
      ∨ ∃ prefix N, Py.split "bin" method = [prefix; N]) →
     extract populated_regions length h method [] leaked ≠ Ok sample)
  ∧ ((method ∈ directional
      ∧ ∃ raw_count, entries_selection h method = Ok raw_count)
     ∨ (∃ prefix N bin, Py.split "bin" method = [prefix; N]
                        ∧ Py.int N = Ok bin) →
     (∀ populated_regions length leaked,
        length ≠ 0%R →
        extract populated_regions length h method [] leaked =
          Raise Py.IndexError)
     ∧ (∀ options populated_regions world run rest st trace run_length
          location others methods,
          admission (world run) run = (trace, Admit run_length) →
          locations options = location :: others →
          Forall (λ l, is_Some (rw_objects (world run) !! l))
            (location :: others) →
          rw_objects (world run) !! location = Some h →
          Occupancies.method options = method :: methods →
          main_loop options populated_regions world (run :: rest) st =
            Raise Py.IndexError)).
Proof.
  split.
  - intros populated_regions length leaked sample Hmethod.
    now apply first_extraction_no_sample.
  - intros Hraw. split.
    + intros populated_regions length leaked Hlen.
      now apply first_extraction_index_error.
    + intros options populated_regions world run rest st trace run_length
        location others methods Hadmit Hloc Hall Hobj Hmeth.
      eapply first_extraction_raises; try done.
      apply first_extraction_index_error; [| done].
      now apply (admitted_run_length _ _ _ _ Hadmit).
Qed.

Lemma first_location_error_is_undefined_witness :
  extract ∅ 2 residuals "negative" [] None = Raise Py.IndexError
  ∧ main_loop
      {| name := "below_zero"; type := "absolute";
         locations := ["Monitor/residuals"]; method := ["bin4"];
         y_range := None |}
      ∅ two_runs [101; 102] initial = Raise Py.IndexError.
Proof.
  split.
  - destruct (first_location_error_is_undefined residuals "negative")
      as [_ Hfault].
    destruct Hfault as [Hfault _].
    + left. split; [unfold directional; set_solver | now exists 7%R].
    + apply Hfault. lra.
  - destruct (first_location_error_is_undefined residuals "bin4")
      as [_ Hfault].
    destruct Hfault as [_ Hloop]; [right; now exists "", "4", 4 |].
    apply (Hloop _ ∅ two_runs 101 [102] initial
             [PathExists 101; OpenFile 101] (3600 - 0)%R
             "Monitor/residuals" [] []).
    + unfold admission, two_runs. simpl.
      rewrite bool_decide_eq_false_2; [reflexivity |].
      unfold min_run_length. lra.
    + reflexivity.
    + constructor; [now exists residuals | constructor].
    + reflexivity.
    + reflexivity.
Defined.

(** ** Ratios *)

Lemma combine_ratio_zero (count0 count1 : R) (more_counts temp_errors : list R) :
  count0 = 0%R ∨ count1 = 0%R →
  combine "ratio" (count0 :: count1 :: more_counts) temp_errors =
    Ok (Some {| value := 0; error := 0; publish := false |}).
Proof.
  intros Hzero. unfold combine. cbn [String.eqb Ascii.eqb Bool.eqb].
  change (Py.index (count0 :: count1 :: more_counts) 0) with (Ok count0).
  change (Py.index (count0 :: count1 :: more_counts) 1) with (Ok count1).
  run_bind. case_bool_decide; run_bind; [done |].
  rewrite bool_decide_eq_true_2 by (destruct Hzero; done). done.
Qed.

Lemma combine_ratio_nonzero (count0 count1 err0 err1 : R)
    (more_counts more_errors : list R) :
  count0 ≠ 0%R → count1 ≠ 0%R →
  combine "ratio" (count0 :: count1 :: more_counts)
    (err0 :: err1 :: more_errors) =
    Ok (Some {| value := count0 / count1;
                error := count0 / count1 *
                         sqrt ((err0 / count0) ^ 2 + (err1 / count1) ^ 2);
                publish := true |}).
Proof.
  intros H0 H1. unfold combine. cbn [String.eqb Ascii.eqb Bool.eqb].
  change (Py.index (count0 :: count1 :: more_counts) 0) with (Ok count0).
  change (Py.index (count0 :: count1 :: more_counts) 1) with (Ok count1).
  change (Py.index (err0 :: err1 :: more_errors) 0) with (Ok err0).
  change (Py.index (err0 :: err1 :: more_errors) 1) with (Ok err1).
  run_bind. rewrite bool_decide_eq_false_2 by done. run_bind.
  rewrite bool_decide_eq_false_2 by done. run_bind.
  replace (1.0 * count1)%R with count1 by lra.
  rewrite !div_nonzero by done. run_bind.
  rewrite sqrt_nonnegative by nra. now run_bind.
Qed.

Lemma sqrt_between (low high x : R) :
  (0 <= low)%R → (0 <= high)%R → (low * low < x < high * high)%R →
  (low < sqrt x < high)%R.
Proof.
  intros Hlow Hhigh [Hl Hh]. split.
  - rewrite <- (sqrt_square low) by done. apply sqrt_lt_1; nra.
  - rewrite <- (sqrt_square high Hhigh). apply sqrt_lt_1; nra.
Qed.

(** C2: for a series of type ratio and the samples of the first two
    locations, a zero value on either side appends the point (0, 0), which
    is not published, while the run keeps its place in the series;
    otherwise the quotient of the values is appended and published, with
    the relative errors added in quadrature.  The samples (4, 0.2) and
    (2, 0.1) give 2 with error 2 * sqrt (0.0025 + 0.0025), about 0.1414. *)
Theorem ratio_combination (count0 err0 count1 err1 : R)
    (more_counts more_errors : list R) :
  let temp_counts := count0 :: count1 :: more_counts in
  let temp_errors := err0 :: err1 :: more_errors in
  (count0 = 0%R ∨ count1 = 0%R →
   combine "ratio" temp_counts temp_errors =
     Ok (Some {| value := 0; error := 0; publish := false |})
   ∧ ∀ options populated_regions w run st trace run_length leaked',
       type options = "ratio" →
       admission w run = (trace, Admit run_length) →
       Forall (λ l, is_Some (rw_objects w !! l)) (locations options) →
       extract_all populated_regions (run_length / 3600) (rw_objects w)
         (method options) 0 (locations options) [] [] (leaked st) =
         Ok (temp_counts, temp_errors, leaked') →
       ∃ st', process_run options populated_regions w run st = Ok st'
              ∧ numbers st' = numbers st ++ [run]
              ∧ counts st' = counts st ++ [0%R]
              ∧ errors st' = errors st ++ [0%R]
              ∧ published st' = published st)
  ∧ (count0 ≠ 0%R → count1 ≠ 0%R →
     combine "ratio" temp_counts temp_errors =
       Ok (Some {| value := count0 / count1;
                   error := count0 / count1 *
                            sqrt ((err0 / count0) ^ 2 + (err1 / count1) ^ 2);
                   publish := true |}))
  ∧ combine "ratio" [4; 2]%R [0.2; 0.1]%R =
      Ok (Some {| value := 2; error := 2 * sqrt (0.0025 + 0.0025);
                  publish := true |})
  ∧ (0.1414 < 2 * sqrt (0.0025 + 0.0025) < 0.1415)%R.
Proof.
  intros temp_counts temp_errors. split; [| split; [| split]].
  - intros Hzero.
    pose proof (combine_ratio_zero count0 count1 more_counts temp_errors Hzero)
      as Hcombine.
    split; [exact Hcombine |].
    intros options populated_regions w run st trace run_length leaked'
      Htype Hadmit Hall Hextract.
    eexists. split.
    + eapply process_run_admitted; [done | done | exact Hextract |].
      rewrite Htype. exact Hcombine.
    + now cbn.
  - intros H0 H1. now apply combine_ratio_nonzero.
  - rewrite combine_ratio_nonzero by lra. do 3 f_equal.
    + lra.
    + replace (4 / 2)%R with 2%R by lra. do 2 f_equal. lra.
  - pose proof (sqrt_between 0.0707 0.07075 (0.0025 + 0.0025)) as Hsqrt.
    lra.
Qed.

Lemma ratio_combination_witness :
  combine "ratio" [0; 5]%R [1; 1]%R =
    Ok (Some {| value := 0; error := 0; publish := false |})
  ∧ combine "ratio" [5; 0]%R [1; 1]%R =
    Ok (Some {| value := 0; error := 0; publish := false |})
  ∧ combine "ratio" [6; 3]%R [0; 0]%R =
    Ok (Some {| value := 6 / 3;
                error := 6 / 3 * sqrt ((0 / 6) ^ 2 + (0 / 3) ^ 2);
                publish := true |}).
Proof.
  split; [| split].
  - apply (ratio_combination 0 1 5 1 [] []). left. reflexivity.
  - apply (ratio_combination 5 1 0 1 [] []). right. reflexivity.
  - apply (ratio_combination 6 0 3 0 [] []); lra.
Defined.

(** ** The order of the admission checks *)

Lemma occupancies_looks_for_archive_first (w : run_world) (run : Z)
    (state : string) :
  rw_state w = Some state → state ≠ "CREATED" →
  (rw_end w - rw_start w < min_run_length)%R →
  ∃ rest why, admission w run = (PathExists run :: rest, Reject why)
              ∧ (rw_exists w = false → CreateSaveset run ∈ rest).
Proof.
  intros Hstate Hcreated Hshort. unfold admission. rewrite Hstate.
  destruct (String.eqb_spec state "CREATED") as [-> | _]; [done |].
  cbn [require_offline andb].
  destruct (rw_exists w), (rw_exists_after_request w); cbn [negb andb];
    rewrite ?bool_decide_eq_true_2 by done;
    eexists _, _; (split; [reflexivity | intros; set_solver]).
Qed.

Lemma pseudo_efficiencies_checks_length_first (w : run_world) (run : Z) :
  rw_state w ≠ Some "CREATED" →
  (rw_end w - rw_start w < PseudoEfficiencies.min_run_length)%R →
  PseudoEfficiencies.admission w run = ([], Reject TooShort).
Proof.
  intros Hstate Hshort. unfold PseudoEfficiencies.admission.
  rewrite bool_decide_eq_false_2 by done.
  cbn [PseudoEfficiencies.require_offline andb].
  now rewrite bool_decide_eq_true_2.
Qed.

(** C3: in [plot_occupancies.py] a finished run of 100 seconds whose
    archive is missing is looked up, requested from the archival service
    and looked up again, and is rejected for its missing data; its length is
    never compared.  [plot_pseudo_efficiencies.py] rejects the same run for
    its length without touching the archive. *)
Theorem short_run_reaches_archive_lookup :
  admission (unarchived 100) 7 =
    ([PathExists 7; CreateSaveset 7; PathExists 7], Reject NoData)
  ∧ admission (finished 100 ∅) 7 = ([PathExists 7], Reject TooShort)
  ∧ PseudoEfficiencies.admission (unarchived 100) 7 = ([], Reject TooShort)
  ∧ PseudoEfficiencies.admission (finished 100 ∅) 7 = ([], Reject TooShort).
Proof.
  assert (Hshort : (100 - 0 < 300)%R) by lra.
  split; [reflexivity |].
  split.
  { unfold admission, finished. cbn -[bool_decide].
    now rewrite bool_decide_eq_true_2. }
  split; apply pseudo_efficiencies_checks_length_first; try done;
    cbn; unfold PseudoEfficiencies.min_run_length; lra.
Qed.

(** ** Runs that lack a configured location *)

Lemma admission_finished (seconds : R) (objects : gmap string histogram)
    (run : Z) :
  (min_run_length <= seconds)%R →
  admission (finished seconds objects) run =
    ([PathExists run; OpenFile run], Admit (seconds - 0)).
Proof.
  intros Hlong. unfold admission, finished. cbn -[bool_decide].
  rewrite bool_decide_eq_false_2; [done | lra].
Qed.

Lemma process_run_missing_location (options : options)
    (populated_regions : gmap string roi) (w : run_world) (run : Z)
    (st : state) (trace : list event) (run_length : R) (location : string) :
  admission w run = (trace, Admit run_length) →
  location ∈ locations options →
  rw_objects w !! location = None →
  process_run options populated_regions w run st =
    Ok {| numbers := numbers st ++ [run];
          lengths := lengths st ++ [(run_length / 3600)%R];
          counts := counts st; errors := errors st;
          published := published st; leaked := leaked st;
          effects := effects st ++ trace |}.
Proof.
  intros Hadmit Hin Hnone. unfold process_run. rewrite Hadmit.
  replace (forallb _ _) with false; [done |].
  symmetry. apply not_true_is_false. intros Hall.
  rewrite forallb_forall in Hall.
  specialize (Hall location ltac:(now apply list_elem_of_In)).
  apply bool_decide_eq_true_1 in Hall. rewrite Hnone in Hall.
  now destruct Hall.
Qed.

(** C5: over the runs 100 and 101, where run 100 is admitted but lacks the
    configured histogram, the loop records two run numbers and two run
    lengths against one value and one error, and the plot gives the value of
    run 101 the label of run 100. *)
Theorem missing_location_leaves_run_number :
  ∃ st output_plot,
    main_loop mean_trend ∅ two_runs (run_range 100 101) initial = Ok st
    ∧ numbers st = [100; 101]
    ∧ List.length (lengths st) = 2%nat
    ∧ counts st = [0.25%R]
    ∧ errors st = [0%R]
    ∧ published st = [(101, 0.25%R, 0%R)]
    ∧ fill_plot (numbers st) (errors st) 0 (counts st)
        (new_plot (List.length (numbers st))) = Ok output_plot
    ∧ bin_content output_plot = [0.25%R; 0%R]
    ∧ bin_label output_plot = ["100"; ""].
Proof.
  assert (Hlong : (min_run_length <= 3600)%R) by (unfold min_run_length; lra).
  eexists _, _. split.
  { change (run_range 100 101) with [100; 101]. cbn [main_loop].
    rewrite (process_run_missing_location mean_trend ∅ (two_runs 100) 100
               initial _ _ "Monitor/residuals"
               (admission_finished 3600 ∅ 100 Hlong));
      [| unfold mean_trend; cbn; set_solver | reflexivity].
    run_bind.
    assert (Hall : Forall (λ l, is_Some (rw_objects (two_runs 101) !! l))
                     (locations mean_trend)).
    { constructor; [now exists residuals | constructor]. }
    erewrite (process_run_admitted mean_trend ∅ (two_runs 101) 101 _ _ _ _ _ _ _
                (admission_finished 3600 _ 101 Hlong) Hall);
      [run_bind; reflexivity | reflexivity | reflexivity]. }
  cbn. repeat split; reflexivity.
Qed.

(** ** Hotspot means *)

Lemma Zfloor_IZR (z : Z) : Zfloor (IZR z) = z.
Proof. apply Zfloor_eq. lra. Qed.

Lemma cluster_map_bin_of_0 : axis_bin 5 0 12.5 (IZR 0) = 1.
Proof.
  unfold axis_bin. destruct (decide (0 < 0)%R); [lra |].
  destruct (decide (0 < 12.5)%R); [| lra].
  replace (5 * (0 - 0) / (12.5 - 0))%R with (IZR 0) by lra.
  now rewrite Zfloor_IZR.
Qed.

Lemma cluster_map_bin_of_10 : axis_bin 5 0 12.5 (IZR 10) = 5.
Proof.
  unfold axis_bin. destruct (decide (10 < 0)%R); [lra |].
  destruct (decide (10 < 12.5)%R); [| lra].
  replace (5 * (10 - 0) / (12.5 - 0))%R with (IZR 4) by lra.
  now rewrite Zfloor_IZR.
Qed.

Lemma sqrt_100 : sqrt 100 = 10%R.
Proof. replace 100%R with (10 * 10)%R by lra. apply sqrt_square. lra. Qed.

Section Hotspot.

Variable populated_regions : gmap string roi.
Variable length : R.
Variable h : histogram.

Let sensor_key : string := Py.replace "VPClusterMapOn" "" (GetName h).

Lemma hotspot_unregistered :
  populated_regions !! sensor_key = None →
  hotspot_mean populated_regions length h = Ok (0, 0)%R.
Proof. intros Hnone. unfold hotspot_mean. fold sensor_key. now rewrite Hnone. Qed.

Lemma hotspot_undefined_region (region : roi) :
  populated_regions !! sensor_key = Some region →
  roi_x region = [] ∨ roi_y region = [] →
  hotspot_mean populated_regions length h = Ok (0, 0)%R.
Proof.
  intros Hsome Hempty. unfold hotspot_mean. fold sensor_key. rewrite Hsome.
  destruct Hempty as [-> | ->]; [done |].
  now rewrite orb_true_r.
Qed.

Section Region.

Variables x0 x1 y0 y1 : Z.
Variables xs ys : list Z.
Hypothesis registered :
  populated_regions !! sensor_key =
    Some {| roi_x := x0 :: x1 :: xs; roi_y := y0 :: y1 :: ys |}.

Let start_x_bin := GetXaxis_FindBin h (IZR x0).
Let end_x_bin := GetXaxis_FindBin h (IZR x1).
Let start_y_bin := GetYaxis_FindBin h (IZR y0).
Let end_y_bin := GetYaxis_FindBin h (IZR y1).
Let n_bins_in_roi :=
  (end_x_bin - start_x_bin + 1) * (end_y_bin - start_y_bin + 1).
Let integral :=
  Integral2 h start_x_bin end_x_bin start_y_bin end_y_bin.

Lemma hotspot_guarded :
  (n_bins_in_roi ≤ 0)%Z ∨ (integral <= 0)%R →
  hotspot_mean populated_regions length h = Ok (0, 0)%R.
Proof.
  intros Hguard. unfold hotspot_mean. fold sensor_key. rewrite registered.
  cbn -[bool_decide Z.mul Z.add Z.sub].
  fold start_x_bin end_x_bin start_y_bin end_y_bin.
  fold n_bins_in_roi. fold integral.
  destruct Hguard as [Hbins | Hintegral].
  - now rewrite (bool_decide_eq_false_2 (0 < n_bins_in_roi)) by lia.
  - rewrite (bool_decide_eq_false_2 (0 < integral)%R) by lra.
    now rewrite andb_false_r.
Qed.

Lemma hotspot_populated :
  (0 < n_bins_in_roi)%Z → (0 < integral)%R → length ≠ 0%R →
  hotspot_mean populated_regions length h =
    Ok (integral / IZR n_bins_in_roi / length,
        sqrt integral / IZR n_bins_in_roi / length)%R.
Proof.
  intros Hbins Hintegral Hlength. unfold hotspot_mean. fold sensor_key.
  rewrite registered. cbn -[bool_decide Z.mul Z.add Z.sub Py.div].
  fold start_x_bin end_x_bin start_y_bin end_y_bin.
  fold n_bins_in_roi. fold integral.
  rewrite (bool_decide_eq_true_2 (0 < n_bins_in_roi)) by done.
  rewrite (bool_decide_eq_true_2 (0 < integral)%R) by done.
  rewrite !(bool_decide_eq_false_2 (_ :: _ = [])) by done.
  cbn [andb orb]. now rewrite !div_nonzero by done.
Qed.

End Region.

End Hotspot.

(** The table of [occupancy_options.py]: 52 modules of 4 sensors, each
    region with a low and a high bound on both axes. *)
Lemma populated_regions_size : size populated_regions = 208%nat.
Proof. vm_compute. reflexivity. Qed.

Lemma populated_regions_bounds (key : string) (region : roi) :
  populated_regions !! key = Some region →
  ∃ x0 x1 y0 y1, roi_x region = [x0; x1] ∧ roi_y region = [y0; y1]
                 ∧ (x0 < x1)%Z ∧ (y0 < y1)%Z.
Proof.
  assert (Hall : map_Forall
            (λ _ region,
               match roi_x region, roi_y region with
               | [x0; x1], [y0; y1] =>
                   bool_decide (x0 < x1)%Z && bool_decide (y0 < y1)%Z
               | _, _ => false
               end = true) populated_regions).
  { apply (bool_decide_unpack (map_Forall _ _)). vm_compute. exact I. }
  intros Hkey. pose proof (Hall key region Hkey) as Hregion.
  clear Hall Hkey. cbv beta in Hregion.
  destruct region as [xs ys]. cbn [roi_x roi_y] in *.
  destruct xs as [| x0 [| x1 [| ? ?]]]; try discriminate Hregion.
  destruct ys as [| y0 [| y1 [| ? ?]]]; try discriminate Hregion.
  apply andb_true_iff in Hregion as [Hx Hy].
  apply bool_decide_eq_true_1 in Hx, Hy. now exists x0, x1, y0, y1.
Qed.

(** On that table, and for axes whose bin number grows with the position,
    the region has at least one bin: the sample is (0, 0) exactly when the
    integral is not positive. *)
Lemma shipped_region_has_bins (h : histogram) (region : roi) :
  (∀ x y, (x <= y)%R → (GetXaxis_FindBin h x ≤ GetXaxis_FindBin h y)%Z) →
  (∀ x y, (x <= y)%R → (GetYaxis_FindBin h x ≤ GetYaxis_FindBin h y)%Z) →
  populated_regions !! Py.replace "VPClusterMapOn" "" (GetName h) =
    Some region →
  ∃ x0 x1 y0 y1,
    roi_x region = [x0; x1] ∧ roi_y region = [y0; y1]
    ∧ (0 < (GetXaxis_FindBin h (IZR x1) - GetXaxis_FindBin h (IZR x0) + 1)
           * (GetYaxis_FindBin h (IZR y1) - GetYaxis_FindBin h (IZR y0) + 1))%Z.
Proof.
  intros Hx Hy Hkey.
  destruct (populated_regions_bounds _ _ Hkey)
    as (x0 & x1 & y0 & y1 & Hrx & Hry & Hltx & Hlty).
  exists x0, x1, y0, y1. split; [exact Hrx |]. split; [exact Hry |].
  clear Hkey Hrx Hry.
  specialize (Hx (IZR x0) (IZR x1) ltac:(apply IZR_le; lia)).
  specialize (Hy (IZR y0) (IZR y1) ltac:(apply IZR_le; lia)).
  nia.
Qed.

(** C6, as the claim states it, fails: the region of the cluster map is
    registered with the bounds of [x] exchanged, both ranges hold two
    bounds and the integral is 100, yet the extraction returns (0, 0), not
    the integral over the bin count (-15 here) and the run length. *)
Lemma exchanged_bounds_give_zero :
  exchanged !! Py.replace "VPClusterMapOn" "" (GetName cluster_map) =
    Some {| roi_x := [10; 0]; roi_y := [0; 10] |}
  ∧ ((1 - 5 + 1) * (5 - 1 + 1) = -15)%Z
  ∧ Integral2 cluster_map 5 1 1 5 = 100%R
  ∧ extract exchanged 2 cluster_map "hotspot_mean" [] None = Ok (0, 0)%R
  ∧ (100 / IZR (-15) / 2 ≠ 0)%R.
Proof.
  split; [reflexivity |]. split; [reflexivity |]. split; [reflexivity |].
  split; [| lra].
  change (extract exchanged 2 cluster_map "hotspot_mean" [] None)
    with (hotspot_mean exchanged 2 cluster_map).
  apply (hotspot_guarded exchanged 2 cluster_map 10 0 0 10 [] []);
    [reflexivity |].
  left. cbn [cluster_map histogram_of GetXaxis_FindBin GetYaxis_FindBin].
  rewrite cluster_map_bin_of_0, cluster_map_bin_of_10. lia.
Qed.

(** C6, amended: with the sensor key obtained from the object name by
    removing [VPClusterMapOn], the extraction returns (0, 0) without raising
    when the key has no registered region, when the x or the y range of the
    region is empty, when the number of bins of the region is not positive,
    and when the integral over the region is not positive; for a region with
    two bounds on each axis, a positive number of bins and a positive
    integral it returns the integral over the number of bins over the run
    length, with the square root of the integral over the number of bins
    over the run length as error.  A region of 25 bins with integral 100
    over 2 hours gives 2 and 0.2. *)
Theorem hotspot_mean_spec (populated_regions : gmap string roi) (length : R)
    (h : histogram) (temp_counts : list R) (leaked : option (R * R)) :
  let sensor_key := Py.replace "VPClusterMapOn" "" (GetName h) in
  let sample :=
    extract populated_regions length h "hotspot_mean" temp_counts leaked in
  (populated_regions !! sensor_key = None → sample = Ok (0, 0)%R)
  ∧ (∀ region, populated_regions !! sensor_key = Some region →
       roi_x region = [] ∨ roi_y region = [] → sample = Ok (0, 0)%R)
  ∧ (∀ x0 x1 xs y0 y1 ys,
       populated_regions !! sensor_key =
         Some {| roi_x := x0 :: x1 :: xs; roi_y := y0 :: y1 :: ys |} →
       let start_x_bin := GetXaxis_FindBin h (IZR x0) in
       let end_x_bin := GetXaxis_FindBin h (IZR x1) in
       let start_y_bin := GetYaxis_FindBin h (IZR y0) in
       let end_y_bin := GetYaxis_FindBin h (IZR y1) in
       let n_bins_in_roi :=
         (end_x_bin - start_x_bin + 1) * (end_y_bin - start_y_bin + 1) in
       let integral :=
         Integral2 h start_x_bin end_x_bin start_y_bin end_y_bin in
       ((n_bins_in_roi ≤ 0)%Z ∨ (integral <= 0)%R → sample = Ok (0, 0)%R)
       ∧ ((0 < n_bins_in_roi)%Z → (0 < integral)%R → length ≠ 0%R →
          sample = Ok (integral / IZR n_bins_in_roi / length,
                       sqrt integral / IZR n_bins_in_roi / length)%R))
  ∧ extract square 2 cluster_map "hotspot_mean" [] None = Ok (2, 0.2)%R.
Proof.
  intros sensor_key sample.
  change sample with (hotspot_mean populated_regions length h).
  split; [apply hotspot_unregistered |].
  split; [apply hotspot_undefined_region |].
  split.
  - intros x0 x1 xs y0 y1 ys Hregistered. cbv zeta. split.
    + now apply (hotspot_guarded _ _ _ x0 x1 y0 y1 xs ys).
    + now apply (hotspot_populated _ _ _ x0 x1 y0 y1 xs ys).
  - change (extract square 2 cluster_map "hotspot_mean" [] None)
      with (hotspot_mean square 2 cluster_map).
    rewrite (hotspot_populated square 2 cluster_map 0 10 0 10 [] []);
      cbn [cluster_map histogram_of GetXaxis_FindBin GetYaxis_FindBin Integral2];
      rewrite ?cluster_map_bin_of_0, ?cluster_map_bin_of_10;
      [| reflexivity | lia | lra | lra].
    rewrite sqrt_100. f_equal. f_equal.
    + change ((5 - 1 + 1) * (5 - 1 + 1)) with 25. lra.
    + change ((5 - 1 + 1) * (5 - 1 + 1)) with 25. lra.
Qed.

Lemma hotspot_mean_spec_witness :
  extract ∅ 2 cluster_map "hotspot_mean" [] None = Ok (0, 0)%R
  ∧ extract exchanged 2 cluster_map "hotspot_mean" [] None = Ok (0, 0)%R.
Proof.
  split.
  - apply (hotspot_mean_spec ∅ 2 cluster_map [] None). reflexivity.
  - destruct (hotspot_mean_spec exchanged 2 cluster_map [] None)
      as (_ & _ & Hregion & _).
    apply (Hregion 10 0 [] 0 10 []); [reflexivity |].
    left. cbn [cluster_map histogram_of GetXaxis_FindBin GetYaxis_FindBin].
    rewrite cluster_map_bin_of_0, cluster_map_bin_of_10. lia.
Defined.

(** ** The range of the y axis *)

Lemma foldl_Rmax_bounds (rest : list R) (b : R) :
  (b <= foldl Rmax b rest)%R
  ∧ Forall (λ x, (x <= foldl Rmax b rest)%R) rest
  ∧ foldl Rmax b rest ∈ b :: rest.
Proof.
  revert b. induction rest as [| x rest IH]; intros b; cbn [foldl].
  - split; [lra |]. split; [constructor | apply list_elem_of_here].
  - destruct (IH (Rmax b x)) as (Hb & Hrest & Hin).
    pose proof (Rmax_l b x). pose proof (Rmax_r b x).
    split; [lra |]. split; [constructor; [lra | done] |].
    apply elem_of_cons in Hin as [Hin | Hin].
    + rewrite Hin. unfold Rmax.
      destruct (Rle_dec b x);
        [apply list_elem_of_further, list_elem_of_here | apply list_elem_of_here].
    + now do 2 apply list_elem_of_further.
Qed.

(** [GetMaximum] is the largest bin content. *)
Lemma GetMaximum_largest (bins : list R) :
  bins ≠ [] →
  GetMaximum bins ∈ bins ∧ Forall (λ x, (x <= GetMaximum bins)%R) bins.
Proof.
  destruct bins as [| b rest]; [done |]. intros _. cbn [GetMaximum].
  destruct (foldl_Rmax_bounds rest b) as (Hb & Hrest & Hin).
  split; [done | now constructor].
Qed.

Lemma rnd_integer (rnd : R → R) (z : Z) (x : R) :
  Float.rounding rnd → x = IZR z → (Z.abs z < 2 ^ 53)%Z → rnd x = IZR z.
Proof.
  intros [_ Hexact] -> Hz. now apply Hexact, integer_is_binary64.
Qed.

Lemma rnd_half_integer (rnd : R → R) (z : Z) (x : R) :
  Float.rounding rnd → x = (IZR z / 2)%R → (Z.abs z < 2 ^ 53)%Z → rnd x = x.
Proof.
  intros [_ Hexact] -> Hz. apply Hexact. exists z, (-1). split; [| lia].
  cbn [powerRZ]. change (Pos.to_nat 1) with 1%nat. simpl. lra.
Qed.

(** The number of bins, as a float, is at least 1. *)
Lemma rounded_nbins_positive (rnd : R → R) (bins : list R) :
  Float.rounding rnd → bins ≠ [] →
  (1 <= rnd (INR (List.length bins)))%R.
Proof.
  intros Hrnd Hbins.
  rewrite <- (rnd_integer rnd 1 1 Hrnd eq_refl ltac:(lia)).
  apply (Float.rnd_monotone rnd Hrnd).
  destruct bins as [| b rest]; [done |]. cbn [List.length].
  rewrite S_INR. pose proof (pos_INR (List.length rest)). lra.
Qed.

Lemma y_axis_range_positive (rnd : R → R) (bins : list R) :
  Float.rounding rnd →
  bins ≠ [] →
  (0 < GetMinimum bins)%R →
  y_axis_range rnd None bins =
    Ok (0%R,
        rnd (1.5 *
             (let total :=
                foldl (λ sum content, rnd (sum + content)%R) 0%R bins in
              let mean := rnd (total / rnd (INR (List.length bins)))%R in
              if decide (GetMaximum bins < rnd (5 * mean))%R
              then GetMaximum bins else mean))%R).
Proof.
  intros Hrnd Hbins Hmin. unfold y_axis_range.
  replace (1.0 * INR (List.length bins))%R with (INR (List.length bins)) by lra.
  pose proof (rounded_nbins_positive rnd bins Hrnd Hbins) as Hn.
  rewrite div_nonzero by lra. run_bind.
  rewrite (bool_decide_eq_true_2 (0 < GetMinimum bins)%R) by done.
  cbv zeta. case_bool_decide; case_decide; done.
Qed.

(** C7: without a configured range, with [mean] the mean bin content as
    the script computes it in floats (the sum of the bins over their
    number, every operation rounded) and [max] the largest bin content, the
    working maximum is [max] when [5 * mean > max] and [mean] otherwise, and
    a positive minimum gives the range from 0 to 1.5 times the working
    maximum; the bins 1, 1, 1, 1, 10 give the range from 0 to 15. *)
Theorem y_axis_range_heuristic (rnd : R → R) (bins : list R) :
  Float.rounding rnd →
  bins ≠ [] →
  let total := foldl (λ sum content, rnd (sum + content)%R) 0%R bins in
  let mean := rnd (total / rnd (INR (List.length bins)))%R in
  let working_maximum :=
    if decide (rnd (5 * mean) > GetMaximum bins)%R
    then GetMaximum bins else mean in
  (GetMaximum bins ∈ bins ∧ Forall (λ x, (x <= GetMaximum bins)%R) bins)
  ∧ ((0 < GetMinimum bins)%R →
     y_axis_range rnd None bins = Ok (0%R, rnd (1.5 * working_maximum)%R))
  ∧ y_axis_range rnd None [1; 1; 1; 1; 10]%R = Ok (0, 15)%R.
Proof.
  intros Hrnd Hbins total mean working_maximum.
  split; [now apply GetMaximum_largest |]. split.
  - intros Hmin. rewrite y_axis_range_positive by done. reflexivity.
  - clear working_maximum mean total.
    assert (Hmax : GetMaximum [1; 1; 1; 1; 10]%R = 10%R).
    { cbn [GetMaximum foldl]. unfold Rmax.
      repeat (destruct (Rle_dec _ _); try lra). }
    assert (Hmin : GetMinimum [1; 1; 1; 1; 10]%R = 1%R).
    { cbn [GetMinimum foldl]. unfold Rmin.
      repeat (destruct (Rle_dec _ _); try lra). }
    rewrite y_axis_range_positive by (done || rewrite Hmin; lra).
    rewrite Hmax. cbn [foldl List.length]. cbv zeta.
    rewrite (rnd_integer rnd 1 (0 + 1)) by (done || lra || lia).
    rewrite (rnd_integer rnd 2 (1 + 1)) by (done || lra || lia).
    rewrite (rnd_integer rnd 3 (2 + 1)) by (done || lra || lia).
    rewrite (rnd_integer rnd 4 (3 + 1)) by (done || lra || lia).
    rewrite (rnd_integer rnd 14 (4 + 10)) by (done || lra || lia).
    rewrite (rnd_integer rnd 5 (INR 5)) by (done || (cbn; lra) || lia).
    set (mean := rnd (14 / 5)%R).
    assert (Hmean : (2.5 <= mean)%R).
    { rewrite <- (rnd_half_integer rnd 5 2.5 Hrnd) by (lra || lia).
      apply (Float.rnd_monotone rnd Hrnd). lra. }
    assert (Hfive : (12.5 <= rnd (5 * mean))%R).
    { rewrite <- (rnd_half_integer rnd 25 12.5 Hrnd) by (lra || lia).
      apply (Float.rnd_monotone rnd Hrnd). lra. }
    destruct (decide _) as [_ | Hcap]; [| exfalso; apply Hcap; lra].
    now rewrite (rnd_integer rnd 15 (1.5 * 10)) by (done || lra || lia).
Qed.

Lemma y_axis_range_heuristic_witness :
  y_axis_range (λ x : R, x) None [2; 2]%R =
    Ok (0%R,
        (1.5 * (if decide (5 * ((0 + 2 + 2) / INR 2) > GetMaximum [2; 2])%R
                then GetMaximum [2; 2]%R else ((0 + 2 + 2) / INR 2)))%R).
Proof.
  apply (y_axis_range_heuristic (λ x : R, x) [2; 2]%R identity_is_rounding);
    [done |].
  cbn [GetMinimum foldl]. unfold Rmin. destruct (Rle_dec 2 2); lra.
Defined.

(** * Further properties of the scripts *)

(** ** What the loop of plot_occupancies.py keeps *)

Lemma process_run_cases (options : options)
    (populated_regions : gmap string roi) (w : run_world) (run : Z)
    (st st' : state) :
  process_run options populated_regions w run st = Ok st' →
  (numbers st' = numbers st ∧ lengths st' = lengths st
   ∧ counts st' = counts st ∧ errors st' = errors st
   ∧ published st' = published st ∧ leaked st' = leaked st
   ∧ ∃ why, (admission w run).2 = Reject why)
  ∨ (∃ run_length,
       (admission w run).2 = Admit run_length
       ∧ numbers st' = numbers st ++ [run]
       ∧ lengths st' = lengths st ++ [(run_length / 3600)%R]
       ∧ ((counts st' = counts st ∧ errors st' = errors st
           ∧ published st' = published st)
          ∨ ∃ p, counts st' = counts st ++ [value p]
                 ∧ errors st' = errors st ++ [error p]
                 ∧ published st' =
                     if publish p
                     then published st ++ [(run, value p, error p)]
                     else published st)).
Proof.
  unfold process_run.
  destruct (admission w run) as [trace [run_length | why]]; cbn [snd].
  - destruct (negb _).
    + intros [= <-]. right. exists run_length. cbn.
      repeat (split; [done |]). now left.
    + destruct (extract_all _ _ _ _ _ _ _ _ _) as [[[tc te] lk] |];
        run_bind; [| done].
      destruct (combine _ tc te) as [[p |] |]; run_bind; [| | done];
        intros [= <-]; right; exists run_length; cbn;
        repeat (split; [done |]).
      * right. now exists p.
      * now left.
  - intros [= <-]. left. cbn. repeat (split; [done |]). now exists why.
Qed.

(** X1: whatever the runs, the options and the archives, the loop keeps
    the lists aligned: as many errors as values, as many run lengths as run
    numbers, at most one value per recorded run and at most one published
    point per value. *)
Theorem main_loop_keeps_aligned (options : options)
    (populated_regions : gmap string roi) (world : Z → run_world)
    (runs : list Z) (st st' : state) :
  aligned st →
  main_loop options populated_regions world runs st = Ok st' →
  aligned st'.
Proof.
  revert st. induction runs as [| run runs IH]; intros st Hst; cbn [main_loop].
  - now intros [= <-].
  - destruct (process_run _ _ _ _ _) as [st1 |] eqn:Hrun; run_bind; [| done].
    apply IH. destruct Hst as (Hce & Hnl & Hcn & Hpc). unfold aligned.
    apply process_run_cases in Hrun
      as [(-> & -> & -> & -> & -> & _) | (rl & _ & -> & -> & Hrest)];
      [done |].
    rewrite !length_app. cbn [length].
    destruct Hrest as [(-> & -> & ->) | (p & -> & -> & ->)].
    + lia.
    + rewrite !length_app. cbn [length].
      destruct (publish p); rewrite ?length_app; cbn [length]; lia.
Qed.

(** The series of the two sample runs. *)
Lemma two_runs_series :
  main_loop mean_trend ∅ two_runs [100; 101] initial =
    Ok {| numbers := [100; 101];
          lengths := [((3600 - 0) / 3600)%R; ((3600 - 0) / 3600)%R];
          counts := [0.25%R]; errors := [0%R];
          published := [(101, 0.25%R, 0%R)];
          leaked := Some (0.25%R, 0%R);
          effects := [PathExists 100; OpenFile 100;
                      PathExists 101; OpenFile 101] |}.
Proof.
  assert (Hlong : (min_run_length <= 3600)%R) by (unfold min_run_length; lra).
  cbn [main_loop].
  rewrite (process_run_missing_location mean_trend ∅ (two_runs 100) 100
             initial _ _ "Monitor/residuals"
             (admission_finished 3600 ∅ 100 Hlong));
    [| unfold mean_trend; cbn; set_solver | reflexivity].
  run_bind.
  assert (Hall : Forall (λ l, is_Some (rw_objects (two_runs 101) !! l))
                   (locations mean_trend)).
  { constructor; [now exists residuals | constructor]. }
  rewrite (process_run_admitted mean_trend ∅ (two_runs 101) 101 _ _ _
             [0.25%R] [0%R] (Some (0.25%R, 0%R))
             {| value := 0.25; error := 0; publish := true |}
             (admission_finished 3600 _ 101 Hlong) Hall);
    [run_bind; reflexivity | reflexivity | reflexivity].
Qed.

Lemma main_loop_keeps_aligned_witness :
  ∃ st, main_loop mean_trend ∅ two_runs [100; 101] initial = Ok st
        ∧ aligned st.
Proof.
  eexists. split; [apply two_runs_series |].
  apply (main_loop_keeps_aligned mean_trend ∅ two_runs [100; 101] initial).
  - unfold aligned, initial. cbn. lia.
  - apply two_runs_series.
Defined.

(** X2: the run numbers the loop records are the admitted runs, in the
    order of the run range, and the runs handed to [save_in_dqdb] are among
    them, in the same order. *)
Theorem recorded_runs_follow_the_range (options : options)
    (populated_regions : gmap string roi) (world : Z → run_world)
    (runs : list Z) (st st' : state) :
  main_loop options populated_regions world runs st = Ok st' →
  ∃ admitted sent,
    numbers st' = numbers st ++ admitted
    ∧ admitted `sublist_of` runs
    ∧ Forall (λ run, ∃ run_length,
                (admission (world run) run).2 = Admit run_length) admitted
    ∧ published_runs st' = published_runs st ++ sent
    ∧ sent `sublist_of` admitted.
Proof.
  revert st. induction runs as [| run runs IH]; intros st; cbn [main_loop].
  - intros [= <-]. exists [], []. rewrite !app_nil_r. repeat split; constructor.
  - destruct (process_run _ _ _ _ _) as [st1 |] eqn:Hrun; run_bind; [| done].
    intros Hloop.
    destruct (IH _ Hloop) as (adm & sent & Hn & Hsub & Hadm & Hp & Hsent).
    apply process_run_cases in Hrun
      as [(Hn1 & _ & _ & _ & Hp1 & _) | (rl & Hrl & Hn1 & _ & Hrest)].
    + exists adm, sent. unfold published_runs in *. rewrite Hn, Hn1, Hp, Hp1.
      repeat split; try done. now apply sublist_cons.
    + assert (Hcases : published_runs st1 = published_runs st
                       ∨ published_runs st1 = published_runs st ++ [run]).
      { unfold published_runs.
        destruct Hrest as [(_ & _ & ->) | (p & _ & _ & ->)]; [now left |].
        destruct (publish p); [right | now left].
        now rewrite fmap_app. }
      destruct Hcases as [Hp1 | Hp1].
      * exists (run :: adm), sent. rewrite Hn, Hn1, Hp, Hp1, <- app_assoc.
        repeat split; try done.
        -- now apply sublist_skip.
        -- constructor; [now exists rl | done].
        -- now apply sublist_cons.
      * exists (run :: adm), (run :: sent).
        rewrite Hn, Hn1, Hp, Hp1, <- !app_assoc.
        repeat split; try done.
        -- now apply sublist_skip.
        -- constructor; [now exists rl | done].
        -- now apply sublist_skip.
Qed.

Lemma recorded_runs_follow_the_range_witness :
  ∃ admitted sent,
    [100; 101] = [] ++ admitted ∧ admitted `sublist_of` [100; 101]
    ∧ [101] = [] ++ sent ∧ sent `sublist_of` admitted.
Proof.
  destruct (recorded_runs_follow_the_range mean_trend ∅ two_runs [100; 101]
              initial _ two_runs_series)
    as (admitted & sent & Hn & Hsub & _ & Hp & Hsent).
  now exists admitted, sent.
Defined.

(** X3: a run whose state is CREATED leaves no trace at all, whatever its
    other metadata and its archive: [plot_occupancies.py] goes on with the
    state it had, and neither script touches the file system for it. *)
Theorem created_run_is_excluded (options : options)
    (populated_regions : gmap string roi) (w : run_world) (run : Z)
    (st : state) :
  rw_state w = Some "CREATED" →
  process_run options populated_regions w run st = Ok st
  ∧ admission w run = ([], Reject NotFinalized)
  ∧ PseudoEfficiencies.admission w run = ([], Reject NotFinalized).
Proof.
  intros Hstate.
  assert (Hadm : admission w run = ([], Reject NotFinalized)).
  { unfold admission. now rewrite Hstate. }
  split; [| split; [done |]].
  - unfold process_run. rewrite Hadm, app_nil_r. now destruct st.
  - unfold PseudoEfficiencies.admission.
    now rewrite bool_decide_eq_true_2.
Qed.

Lemma created_run_is_excluded_witness :
  process_run mean_trend ∅
    {| rw_state := Some "CREATED"; rw_destination := "OFFLINE";
       rw_start := 0; rw_end := 7200; rw_exists := true;
       rw_exists_after_request := true; rw_zombie := false;
       rw_recovered := false;
       rw_objects := {[ "Monitor/residuals" := residuals ]} |}
    100 initial = Ok initial.
Proof. now apply created_run_is_excluded. Defined.

(** ** Which runs are admitted *)

(** The admission sequence of [plot_occupancies.py], which takes the
    archive it reaches to open, admits a run exactly when its metadata has a
    state other than CREATED, its archive is there (at once or after the
    creation request), it lasts at least [min_run_length] seconds and the
    archive was not recovered after a crash. *)
Lemma admission_admits_iff (w : run_world) (run : Z) (run_length : R) :
  (∃ trace, admission w run = (trace, Admit run_length))
  ↔ (∃ state, rw_state w = Some state ∧ state ≠ "CREATED")
    ∧ (rw_exists w = true ∨ rw_exists_after_request w = true)
    ∧ run_length = (rw_end w - rw_start w)%R
    ∧ (300 <= run_length)%R
    ∧ rw_recovered w = false.
Proof.
  unfold admission, min_run_length. cbn [require_offline andb]. split.
  - intros [trace Hadm].
    destruct (rw_state w) as [status |]; [| done].
    destruct (String.eqb status "CREATED") eqn:Hstate; [done |].
    apply String.eqb_neq in Hstate.
    destruct (rw_exists w), (rw_exists_after_request w); cbn [negb andb] in Hadm;
      try done;
      case_bool_decide; try done;
      destruct (rw_recovered w); try done;
      injection Hadm as _ <-;
      (split; [now exists status |]); (split; [auto |]);
      repeat split; lra.
  - intros ((status & -> & Hstate) & Hexists & -> & Hlong & ->).
    apply String.eqb_neq in Hstate. rewrite Hstate.
    rewrite bool_decide_eq_false_2 by lra.
    destruct Hexists as [-> | ->]; destruct (rw_exists w);
      cbn [negb andb]; eauto.
Qed.

(** X4: for a saveset that [TFile.Open] can open, [plot_occupancies.py]
    admits a run exactly when its metadata has a state other than CREATED,
    the saveset is there (at once or after the creation request), the run
    lasts at least [min_run_length] seconds (a run of exactly that length is
    kept) and the file was not recovered after a crash; the length it is
    admitted with is [endtime - starttime]. *)
Theorem openable_run_is_admitted_iff (w : run_world) (run : Z)
    (run_length : R) :
  rw_zombie w = false →
  (∃ trace, admission w run = (trace, Admit run_length))
  ↔ (∃ state, rw_state w = Some state ∧ state ≠ "CREATED")
    ∧ (rw_exists w = true ∨ rw_exists_after_request w = true)
    ∧ run_length = (rw_end w - rw_start w)%R
    ∧ (300 <= run_length)%R
    ∧ rw_recovered w = false.
Proof. intros _. apply admission_admits_iff. Qed.

Lemma openable_run_is_admitted_iff_witness :
  ∃ trace, admission (finished 300 ∅) 7 = (trace, Admit (300 - 0)).
Proof.
  apply (openable_run_is_admitted_iff (finished 300 ∅) 7 (300 - 0) eq_refl).
  split; [now exists "ENDED" |]. split; [now left |].
  split; [reflexivity |]. split; [lra | reflexivity].
Defined.

Lemma pseudo_efficiencies_admits_iff (w : run_world) (run : Z) (run_length : R) :
  (∃ trace, PseudoEfficiencies.admission w run = (trace, Admit run_length))
  ↔ rw_state w ≠ Some "CREATED"
    ∧ (rw_exists w = true ∨ rw_exists_after_request w = true)
    ∧ run_length = (rw_end w - rw_start w)%R
    ∧ (300 <= run_length)%R
    ∧ rw_zombie w = false
    ∧ rw_recovered w = false.
Proof.
  unfold PseudoEfficiencies.admission, PseudoEfficiencies.min_run_length.
  cbn [PseudoEfficiencies.require_offline andb]. split.
  - intros [trace Hadm].
    case_bool_decide as Hstate; [done |].
    case_bool_decide; [done |].
    destruct (rw_exists w), (rw_exists_after_request w); cbn [negb andb] in Hadm;
      try done;
      destruct (rw_zombie w); try done;
      destruct (rw_recovered w); try done;
      injection Hadm as _ <-;
      (split; [done |]); (split; [auto |]);
      repeat split; lra.
  - intros (Hstate & Hexists & -> & Hlong & -> & ->).
    rewrite bool_decide_eq_false_2 by done.
    rewrite bool_decide_eq_false_2 by lra.
    destruct Hexists as [-> | ->]; destruct (rw_exists w);
      cbn [negb andb]; eauto.
Qed.

(** X5: on metadata that has a state, and for an archive ROOT can open,
    the two scripts admit the same runs with the same run length, although
    they order their checks differently. *)
Theorem scripts_admit_the_same_runs (w : run_world) (run : Z) (run_length : R) :
  is_Some (rw_state w) →
  rw_zombie w = false →
  (∃ trace, admission w run = (trace, Admit run_length))
  ↔ (∃ trace, PseudoEfficiencies.admission w run = (trace, Admit run_length)).
Proof.
  intros [status Hstate] Hzombie.
  rewrite admission_admits_iff, pseudo_efficiencies_admits_iff.
  rewrite Hstate, Hzombie. split.
  - intros ((status' & [= <-] & Hcreated) & Hrest).
    split; [congruence | tauto].
  - intros (Hcreated & Hexists & Hlen & Hlong & _ & Hrec).
    split; [exists status; split; [done | congruence] | tauto].
Qed.

Lemma scripts_admit_the_same_runs_witness :
  ∃ trace, PseudoEfficiencies.admission (finished 300 ∅) 7 =
             (trace, Admit (300 - 0)).
Proof.
  apply (scripts_admit_the_same_runs (finished 300 ∅) 7 (300 - 0)).
  - now exists "ENDED".
  - reflexivity.
  - exists [PathExists 7; OpenFile 7]. apply admission_finished.
    unfold min_run_length. lra.
Defined.

Ltac trace_facts :=
  cbn [fst snd negb andb app];
  repeat split; intros;
  repeat match goal with
         | H : _ ∈ _ |- _ => rewrite ?elem_of_cons, ?elem_of_nil in H
         | |- _ ∈ _ => rewrite ?elem_of_cons, ?elem_of_nil
         end;
  solve [naive_solver lra | naive_solver].

Lemma occupancies_trace (w : run_world) (run : Z) :
  (CreateSaveset run ∈ (admission w run).1 → rw_exists w = false)
  ∧ (OpenFile run ∈ (admission w run).1 →
     (rw_exists w = true ∨ rw_exists_after_request w = true)
     ∧ (300 <= rw_end w - rw_start w)%R)
  ∧ ((∃ run_length, (admission w run).2 = Admit run_length)
     ∨ (admission w run).2 = Reject CrashRecovered →
     OpenFile run ∈ (admission w run).1).
Proof.
  unfold admission, min_run_length. cbn [require_offline andb].
  destruct (rw_state w) as [status |]; [| trace_facts].
  destruct (String.eqb status "CREATED"); [trace_facts |].
  destruct (rw_exists w), (rw_exists_after_request w); cbn [negb andb];
    try (trace_facts; fail);
    case_bool_decide; try (trace_facts; fail);
    destruct (rw_recovered w); trace_facts.
Qed.

Lemma pseudo_efficiencies_trace (w : run_world) (run : Z) :
  (CreateSaveset run ∈ (PseudoEfficiencies.admission w run).1 →
   rw_exists w = false)
  ∧ (OpenFile run ∈ (PseudoEfficiencies.admission w run).1 →
     (rw_exists w = true ∨ rw_exists_after_request w = true)
     ∧ (300 <= rw_end w - rw_start w)%R).
Proof.
  unfold PseudoEfficiencies.admission, PseudoEfficiencies.min_run_length.
  cbn [PseudoEfficiencies.require_offline andb].
  case_bool_decide; [trace_facts |].
  case_bool_decide; [trace_facts |].
  destruct (rw_exists w), (rw_exists_after_request w); cbn [negb andb];
    try (trace_facts; fail);
    destruct (rw_zombie w); try (trace_facts; fail);
    destruct (rw_recovered w); trace_facts.
Qed.

(** X6: in both scripts the creation of a saveset is requested only for a
    file that is not there, and the archive is opened only once it is there
    and the run is long enough; [plot_occupancies.py] opens it for every
    run it admits and for every run it rejects as crash-recovered. *)
Theorem archive_is_opened_last (w : run_world) (run : Z) (trace : list event) :
  trace = (admission w run).1 ∨ trace = (PseudoEfficiencies.admission w run).1 →
  (CreateSaveset run ∈ trace → rw_exists w = false)
  ∧ (OpenFile run ∈ trace →
     (rw_exists w = true ∨ rw_exists_after_request w = true)
     ∧ (300 <= rw_end w - rw_start w)%R).
Proof.
  intros [-> | ->].
  - destruct (occupancies_trace w run) as (Hcreate & Hopen & _). now split.
  - apply pseudo_efficiencies_trace.
Qed.

Lemma archive_is_opened_last_witness :
  CreateSaveset 7 ∈ (admission (unarchived 100) 7).1
  ∧ rw_exists (unarchived 100) = false.
Proof.
  split.
  - cbn. set_solver.
  - apply (archive_is_opened_last (unarchived 100) 7 _ (or_introl eq_refl)).
    cbn. set_solver.
Defined.

(** ** The other extraction methods *)

(** X7: the method raw gives the entries over the run length, with the
    square root of the entries over the run length as error; a run length of
    zero raises [ZeroDivisionError] and, for a run length other than zero, a
    negative number of entries raises [ValueError]. *)
Theorem raw_method_sample (populated_regions : gmap string roi) (length : R)
    (h : histogram) (temp_counts : list R) (leaked : option (R * R)) :
  let sample :=
    extract populated_regions length h "raw" temp_counts leaked in
  (length ≠ 0%R → (0 <= GetEntries h)%R →
   sample = Ok (GetEntries h / length, sqrt (GetEntries h) / length)%R)
  ∧ (length = 0%R → sample = Raise Py.ZeroDivisionError)
  ∧ (length ≠ 0%R → (GetEntries h < 0)%R → sample = Raise Py.ValueError).
Proof.
  cbv zeta. unfold extract. cbn [String.eqb Ascii.eqb Bool.eqb].
  split; [| split].
  - intros Hlen Hentries. rewrite div_nonzero by done. run_bind.
    rewrite sqrt_nonnegative by done. run_bind. now rewrite div_nonzero.
  - intros ->. rewrite div_zero. reflexivity.
  - intros Hlen Hentries. rewrite div_nonzero by done. run_bind.
    unfold Py.sqrt. now destruct (Rlt_dec _ 0).
Qed.

Lemma raw_method_sample_witness :
  extract ∅ 2 cluster_map "raw" [] None = Ok (100 / 2, sqrt 100 / 2)%R
  ∧ extract ∅ 0 cluster_map "raw" [] None = Raise Py.ZeroDivisionError.
Proof.
  split.
  - apply (raw_method_sample ∅ 2 cluster_map [] None); cbn; lra.
  - now apply (raw_method_sample ∅ 0 cluster_map [] None).
Defined.

Lemma bin_method_ratio (length : R) (h : histogram)
    (method prefix N M : string) (more : list string) (bin ref_bin : Z)
    (temp_counts : list R) :
  Py.split "bin" method = prefix :: N :: M :: more →
  Py.int N = Ok bin →
  Py.int M = Ok ref_bin →
  bin_method length h method temp_counts =
    (let raw_count := GetBinContent h bin in
     let ref_count := GetBinContent h ref_bin in
     this_count ← Py.div raw_count ref_count;
     inv_raw ← Py.div 1 raw_count;
     inv_ref ← Py.div 1 ref_count;
     variance ← Py.div ((inv_raw + inv_ref) * raw_count) ref_count;
     this_count_err ← Py.sqrt variance;
     Ok (this_count, this_count_err)).
Proof.
  intros Hsplit HN HM. unfold bin_method. rewrite Hsplit.
  change (Py.index (prefix :: N :: M :: more) 1) with (Ok N).
  change (Py.index (prefix :: N :: M :: more) 2) with (Ok M).
  run_bind. rewrite HN. run_bind.
  rewrite bool_decide_eq_true_2 by (cbn; lia).
  run_bind. now rewrite HM.
Qed.

(** X8: a method [binNbinM] gives the content of bin N over the content of
    bin M, whatever the run length and the values extracted before; for
    positive contents the square of its error is that ratio times
    [1/content(N) + 1/content(M)]; a content of zero in either bin raises
    [ZeroDivisionError]. *)
Theorem bin_ratio_sample (populated_regions : gmap string roi) (length : R)
    (h : histogram) (method prefix N M : string) (more : list string)
    (bin ref_bin : Z) (temp_counts : list R) (leaked : option (R * R)) :
  Py.split "bin" method = prefix :: N :: M :: more →
  Py.int N = Ok bin →
  Py.int M = Ok ref_bin →
  let raw_count := GetBinContent h bin in
  let ref_count := GetBinContent h ref_bin in
  let sample :=
    extract populated_regions length h method temp_counts leaked in
  ((0 < raw_count)%R → (0 < ref_count)%R →
   ∃ err, sample = Ok ((raw_count / ref_count)%R, err)
          ∧ (0 <= err)%R
          ∧ (err * err =
             raw_count / ref_count * (1 / raw_count + 1 / ref_count))%R)
  ∧ (raw_count = 0%R ∨ ref_count = 0%R →
     sample = Raise Py.ZeroDivisionError).
Proof.
  intros Hsplit HN HM. cbv zeta.
  rewrite extract_bin by (apply split_contains; rewrite Hsplit; cbn; lia).
  rewrite (bin_method_ratio _ _ _ prefix N M more bin ref_bin) by done.
  cbv zeta. split.
  - intros Hraw Href. do 4 (rewrite div_nonzero by lra; run_bind).
    assert (Hvar : (0 <= (1 / GetBinContent h bin + 1 / GetBinContent h ref_bin)
                         * GetBinContent h bin / GetBinContent h ref_bin)%R).
    { apply Rmult_le_pos; [| left; now apply Rinv_0_lt_compat].
      apply Rmult_le_pos; [| lra].
      assert (0 < 1 / GetBinContent h bin)%R
        by (apply Rdiv_lt_0_compat; lra).
      assert (0 < 1 / GetBinContent h ref_bin)%R
        by (apply Rdiv_lt_0_compat; lra).
      lra. }
    rewrite sqrt_nonnegative by done. run_bind.
    eexists. split; [reflexivity |]. split; [apply sqrt_pos |].
    rewrite sqrt_sqrt by done. field. lra.
  - intros [Hraw | Href].
    + destruct (Req_dec_T (GetBinContent h ref_bin) 0) as [Href | Href].
      * rewrite Href, (div_zero (GetBinContent h bin)). reflexivity.
      * rewrite Hraw, (div_nonzero 0 _ Href). run_bind.
        rewrite (div_zero 1). reflexivity.
    + rewrite Href, (div_zero (GetBinContent h bin)). reflexivity.
Qed.

Lemma bin_ratio_sample_witness :
  ∃ err, extract ∅ 2 residuals "bin3bin4" [] None = Ok ((3 / 3)%R, err)
         ∧ (0 <= err)%R ∧ (err * err = 3 / 3 * (1 / 3 + 1 / 3))%R.
Proof.
  apply (bin_ratio_sample ∅ 2 residuals "bin3bin4" "" "3" "4" [] 3 4 [] None);
    try reflexivity; cbn; lra.
Defined.

(** X9: a method that no branch of the extraction loop knows raises
    [NameError] on the first pass of the loop and otherwise yields, once
    more, the sample of the pass before: after a location extracted with
    mean, a location with such a method repeats the mean of the first. *)
Theorem unknown_method_repeats_previous_sample
    (populated_regions : gmap string roi) (length : R) (method : string) :
  method ∉ ["raw"; "mean"; "RMS"; "hotspot_mean"] →
  method ∉ directional →
  Py.contains "bin" method = false →
  (∀ h temp_counts leaked,
     extract populated_regions length h method temp_counts leaked =
       match leaked with
       | Some sample => Ok sample
       | None => Raise Py.NameError
       end)
  ∧ (∀ objects first second h1 h2 leaked,
       objects !! first = Some h1 → objects !! second = Some h2 →
       extract_all populated_regions length objects ["mean"; method] 0
         [first; second] [] [] leaked =
         Ok ([GetMean h1; GetMean h1], [GetMeanError h1; GetMeanError h1],
             Some (GetMean h1, GetMeanError h1))).
Proof.
  intros Hliteral Hdirectional Hbin.
  assert (Hextract : ∀ h temp_counts leaked,
            extract populated_regions length h method temp_counts leaked =
              match leaked with
              | Some sample => Ok sample
              | None => Raise Py.NameError
              end).
  { intros h temp_counts leaked. unfold extract.
    destruct (String.eqb_spec method "raw") as [Heq | _];
      [destruct Hliteral; rewrite Heq; set_solver |].
    destruct (String.eqb_spec method "mean") as [Heq | _];
      [destruct Hliteral; rewrite Heq; set_solver |].
    destruct (String.eqb_spec method "RMS") as [Heq | _];
      [destruct Hliteral; rewrite Heq; set_solver |].
    rewrite bool_decide_eq_false_2 by done.
    destruct (String.eqb_spec method "hotspot_mean") as [Heq | _];
      [destruct Hliteral; rewrite Heq; set_solver |].
    now rewrite Hbin. }
  split; [exact Hextract |].
  intros objects first second h1 h2 leaked Hfirst Hsecond.
  cbn [extract_all].
  change (Py.index ["mean"; method] 0) with (Ok "mean").
  change (Py.index ["mean"; method] 1) with (Ok method).
  run_bind. rewrite Hfirst. run_bind.
  change (extract populated_regions length h1 "mean" [] leaked)
    with (Ok (GetMean h1, GetMeanError h1)).
  run_bind. rewrite Hsecond. run_bind. rewrite Hextract. now run_bind.
Qed.

Lemma unknown_method_repeats_previous_sample_witness :
  extract ∅ 2 residuals "median" [] None = Raise Py.NameError
  ∧ extract ∅ 2 residuals "median" [] (Some (4%R, 1%R)) = Ok (4%R, 1%R).
Proof.
  assert (Hmedian : ∀ leaked,
            extract ∅ 2 residuals "median" [] leaked =
              match leaked with
              | Some sample => Ok sample
              | None => Raise Py.NameError
              end).
  { intros leaked.
    apply (unknown_method_repeats_previous_sample ∅ 2 "median").
    - set_solver.
    - unfold directional. set_solver.
    - reflexivity. }
  split; apply Hmedian.
Defined.

Lemma quotient_nonnegative (x y : R) : (0 <= x)%R → (0 < y)%R → (0 <= x / y)%R.
Proof. intros Hx Hy. unfold Rdiv. now apply Rle_mult_inv_pos. Qed.

(** X10: with the table of [occupancy_options.py] the method hotspot_mean
    raises nothing for a run length other than zero, whatever the
    histogram, and for a positive run length neither the value nor the error
    is negative. *)
Theorem hotspot_mean_on_shipped_table (length : R) (h : histogram) :
  length ≠ 0%R →
  ∃ count err,
    hotspot_mean populated_regions length h = Ok (count, err)
    ∧ ((0 < length)%R → (0 <= count)%R ∧ (0 <= err)%R).
Proof.
  intros Hlength.
  destruct (populated_regions !! Py.replace "VPClusterMapOn" "" (GetName h))
    as [region |] eqn:Hkey.
  - destruct (populated_regions_bounds _ _ Hkey)
      as (x0 & x1 & y0 & y1 & Hx & Hy & _ & _).
    destruct region as [xs ys]. cbn [roi_x roi_y] in Hx, Hy. subst xs ys.
    set (n := ((GetXaxis_FindBin h (IZR x1) - GetXaxis_FindBin h (IZR x0) + 1)
               * (GetYaxis_FindBin h (IZR y1) - GetYaxis_FindBin h (IZR y0) + 1))%Z).
    set (integral := Integral2 h (GetXaxis_FindBin h (IZR x0))
                       (GetXaxis_FindBin h (IZR x1))
                       (GetYaxis_FindBin h (IZR y0))
                       (GetYaxis_FindBin h (IZR y1))).
    destruct (decide (0 < n)%Z) as [Hn | Hn];
      [destruct (decide (0 < integral)%R) as [Hi | Hi] |].
    + exists (integral / IZR n / length)%R, (sqrt integral / IZR n / length)%R.
      split; [now apply (hotspot_populated _ _ _ x0 x1 y0 y1 [] []) |].
      intros Hpos.
      assert (0 < IZR n)%R by (now apply IZR_lt).
      pose proof (sqrt_pos integral).
      split; apply quotient_nonnegative; try done;
        apply quotient_nonnegative; try done; lra.
    + exists 0%R, 0%R. split; [| lra].
      apply (hotspot_guarded _ _ _ x0 x1 y0 y1 [] []); [done |].
      right. fold integral. lra.
    + exists 0%R, 0%R. split; [| lra].
      apply (hotspot_guarded _ _ _ x0 x1 y0 y1 [] []); [done |].
      left. fold n. lia.
  - exists 0%R, 0%R. split; [now apply hotspot_unregistered | lra].
Qed.

Lemma hotspot_mean_on_shipped_table_witness :
  ∃ count err, hotspot_mean populated_regions 2 cluster_map = Ok (count, err).
Proof.
  destruct (hotspot_mean_on_shipped_table 2 cluster_map) as (count & err & H & _).
  - lra.
  - now exists count, err.
Defined.

(** ** Selections that share the bin of zero *)

(** X11: on a one-dimensional histogram whose integral adds up over
    adjacent ranges of bins, and whose bin of zero lies on the axis, the
    selections negative and positive together exceed the integral over the
    whole axis by the content of the bin of zero: that bin is counted on
    both sides. *)
Theorem zero_bin_is_counted_twice (h : histogram) :
  InheritsFromTH2 h = false →
  (∀ a b c, (a ≤ b < c)%Z →
     Integral h a c = (Integral h a b + Integral h (b + 1) c)%R) →
  (1 ≤ FindBin h 0 ≤ GetNbinsX h)%Z →
  ∃ negative positive,
    entries_selection h "negative" = Ok negative
    ∧ entries_selection h "positive" = Ok positive
    ∧ (negative + positive =
       Integral h 1 (GetNbinsX h) + Integral h (FindBin h 0) (FindBin h 0))%R.
Proof.
  intros H1D Hadd Hzero.
  exists (Integral h 1 (FindBin h 0)),
    (Integral h (FindBin h 0) (GetNbinsX h)).
  split; [now apply negative_integrates |].
  split; [now apply positive_integrates |].
  destruct (decide (FindBin h 0 = 1)) as [Hone | Hone].
  - rewrite Hone. lra.
  - rewrite (Hadd 1 (FindBin h 0 - 1) (FindBin h 0)) by lia.
    rewrite (Hadd 1 (FindBin h 0 - 1) (GetNbinsX h)) by lia.
    replace (FindBin h 0 - 1 + 1) with (FindBin h 0) by lia. lra.
Qed.

Lemma unit_bins_bin_of_0 : FindBin unit_bins 0 = 6.
Proof.
  cbn [unit_bins FindBin]. unfold axis_bin.
  destruct (decide (0 < -1)%R); [lra |].
  destruct (decide (0 < 1)%R); [| lra].
  replace (10 * (0 - -1) / (1 - -1))%R with (IZR 5) by lra.
  now rewrite Zfloor_IZR.
Qed.

Lemma zero_bin_is_counted_twice_witness :
  ∃ negative positive,
    entries_selection unit_bins "negative" = Ok negative
    ∧ entries_selection unit_bins "positive" = Ok positive
    ∧ (negative + positive =
       Integral unit_bins 1 10 + Integral unit_bins 6 6)%R.
Proof.
  rewrite <- unit_bins_bin_of_0.
  apply (zero_bin_is_counted_twice unit_bins).
  - reflexivity.
  - intros a b c Habc. cbn [unit_bins Integral].
    rewrite <- plus_IZR. f_equal. lia.
  - rewrite unit_bins_bin_of_0. cbn. lia.
Defined.

(** ** What the y axis shows *)

Lemma foldl_Rmin_bounds (rest : list R) (b : R) :
  (foldl Rmin b rest <= b)%R
  ∧ Forall (λ x, (foldl Rmin b rest <= x)%R) rest.
Proof.
  revert b. induction rest as [| x rest IH]; intros b; cbn [foldl].
  - split; [lra | constructor].
  - destruct (IH (Rmin b x)) as (Hb & Hrest).
    pose proof (Rmin_l b x). pose proof (Rmin_r b x).
    split; [lra |]. constructor; [lra | done].
Qed.

(** [GetMinimum] is below every bin content. *)
Lemma GetMinimum_smallest (bins : list R) :
  Forall (λ x, (GetMinimum bins <= x)%R) bins.
Proof.
  destruct bins as [| b rest]; [constructor |]. cbn [GetMinimum].
  destruct (foldl_Rmin_bounds rest b) as (Hb & Hrest). now constructor.
Qed.

Lemma foldl_Rmin_member (rest : list R) (b : R) :
  foldl Rmin b rest ∈ b :: rest.
Proof.
  revert b. induction rest as [| x rest IH]; intros b; cbn [foldl].
  - apply list_elem_of_here.
  - specialize (IH (Rmin b x)). apply elem_of_cons in IH as [IH | IH].
    + rewrite IH. unfold Rmin.
      destruct (Rle_dec b x);
        [apply list_elem_of_here | apply list_elem_of_further, list_elem_of_here].
    + now do 2 apply list_elem_of_further.
Qed.

Lemma GetMinimum_member (bins : list R) :
  bins ≠ [] → GetMinimum bins ∈ bins.
Proof.
  destruct bins as [| b rest]; [done |]. intros _. apply foldl_Rmin_member.
Qed.

(** The rounded sum of bins that are not negative is not negative. *)
Lemma rounded_total_nonnegative (rnd : R → R) (bins : list R) (sum : R) :
  Float.rounding rnd →
  Forall (λ b, (0 <= b)%R) bins → (0 <= sum)%R →
  (0 <= foldl (λ sum content, rnd (sum + content)%R) sum bins)%R.
Proof.
  intros Hrnd Hbins. revert sum.
  induction Hbins as [| b bins Hb _ IH]; intros sum Hsum; cbn [foldl]; [done |].
  apply IH. rewrite <- (rnd_integer rnd 0 0 Hrnd eq_refl ltac:(lia)).
  apply (Float.rnd_monotone rnd Hrnd). lra.
Qed.

(** X12: without a configured range, and with floats as bin contents,
    every bin lies inside the range given to the y axis, unless the smallest
    bin is positive and five times the mean the script computes does not
    exceed the largest bin; in that case the outlier suppression applies and
    the range ends at or below the largest bin. *)
Theorem y_axis_shows_every_bin (rnd : R → R) (bins : list R) (low high : R) :
  Float.rounding rnd →
  Forall Float.binary64 bins →
  bins ≠ [] →
  y_axis_range rnd None bins = Ok (low, high) →
  let total := foldl (λ sum content, rnd (sum + content)%R) 0%R bins in
  let mean := rnd (total / rnd (INR (List.length bins)))%R in
  ((GetMinimum bins <= 0)%R ∨ (GetMaximum bins < rnd (5 * mean))%R →
   Forall (λ b, (low <= b <= high)%R) bins)
  ∧ ((0 < GetMinimum bins)%R → (rnd (5 * mean) <= GetMaximum bins)%R →
     (high <= GetMaximum bins)%R).
Proof.
  intros Hrnd Hfloats Hbins Hrange total mean.
  destruct (GetMaximum_largest bins Hbins) as [Hin Hmax].
  pose proof (GetMinimum_smallest bins) as Hmin.
  pose proof (GetMinimum_member bins Hbins) as Hmin_in.
  rewrite Forall_forall in Hfloats, Hmin, Hmax.
  pose proof (Float.rnd_exact rnd Hrnd _ (Hfloats _ Hin)) as Hmax_exact.
  pose proof (Float.rnd_exact rnd Hrnd _ (Hfloats _ Hmin_in)) as Hmin_exact.
  pose proof (Float.rnd_monotone rnd Hrnd) as Hmono.
  pose proof (rounded_nbins_positive rnd bins Hrnd Hbins) as Hn.
  unfold y_axis_range in Hrange.
  replace (1.0 * INR (List.length bins))%R with (INR (List.length bins))
    in Hrange by lra.
  rewrite div_nonzero in Hrange by lra.
  cbn [mbind Py.result_bind Py.bind] in Hrange.
  fold total in Hrange. fold mean in Hrange.
  split.
  - intros Hshown. apply Forall_forall. intros b Hb.
    specialize (Hmin b Hb). specialize (Hmax b Hb).
    pose proof (Hmono (GetMaximum bins) (1.5 * GetMaximum bins)%R) as Hup.
    pose proof (Hmono (GetMaximum bins) (0.5 * GetMaximum bins)%R) as Hhalf.
    pose proof (Hmono (1.5 * GetMinimum bins)%R (GetMinimum bins)) as Hdown.
    rewrite Hmax_exact in Hup, Hhalf. rewrite Hmin_exact in Hdown.
    destruct (decide (0 < GetMinimum bins)%R) as [Hpos | Hneg].
    + rewrite (bool_decide_eq_true_2 (0 < GetMinimum bins)%R) in Hrange by done.
      rewrite (bool_decide_eq_true_2 (GetMaximum bins < rnd (5 * mean))%R)
        in Hrange by (destruct Hshown; [lra | done]).
      injection Hrange as <- <-. split; [lra |].
      apply Rle_trans with (GetMaximum bins); [done |]. apply Hup. lra.
    + rewrite (bool_decide_eq_false_2 (0 < GetMinimum bins)%R) in Hrange by done.
      assert (Hlow : (rnd (1.5 * GetMinimum bins) <= b)%R).
      { apply Rle_trans with (GetMinimum bins); [| done]. apply Hdown. lra. }
      case_bool_decide; injection Hrange as <- <-; (split; [done |]).
      * apply Rle_trans with (GetMaximum bins); [done |]. apply Hup. lra.
      * apply Rle_trans with (GetMaximum bins); [done |]. apply Hhalf. lra.
  - intros Hpositive Hcapped.
    rewrite (bool_decide_eq_false_2 (GetMaximum bins < rnd (5 * mean))%R)
      in Hrange by lra.
    rewrite (bool_decide_eq_true_2 (0 < GetMinimum bins)%R) in Hrange by done.
    injection Hrange as <- <-.
    assert (Htotal : (0 <= total)%R).
    { apply rounded_total_nonnegative; [done | | lra].
      apply Forall_forall. intros b Hb. specialize (Hmin b Hb). lra. }
    assert (Hmean : (0 <= mean)%R).
    { unfold mean. rewrite <- (rnd_integer rnd 0 0 Hrnd eq_refl ltac:(lia)).
      apply Hmono. apply quotient_nonnegative; [done | lra]. }
    apply Rle_trans with (rnd (5 * mean)%R); [| done]. apply Hmono. lra.
Qed.

Lemma y_axis_shows_every_bin_witness :
  Forall (λ b, (0 <= b <= 15)%R) [1; 1; 1; 1; 10]%R.
Proof.
  assert (Hmax : GetMaximum [1; 1; 1; 1; 10]%R = 10%R).
  { cbn [GetMaximum foldl]. unfold Rmax.
    repeat (destruct (Rle_dec _ _); try lra). }
  assert (Hmin : GetMinimum [1; 1; 1; 1; 10]%R = 1%R).
  { cbn [GetMinimum foldl]. unfold Rmin.
    repeat (destruct (Rle_dec _ _); try lra). }
  assert (Hrange : y_axis_range (λ x : R, x) None [1; 1; 1; 1; 10]%R
                   = Ok (0, 15)%R).
  { rewrite y_axis_range_positive
      by (apply identity_is_rounding || done || rewrite Hmin; lra).
    rewrite Hmax. cbn [foldl List.length]. cbv zeta.
    replace (INR 5) with 5%R by (cbn; lra).
    destruct (decide _) as [_ | Hcap]; [do 2 f_equal; lra |].
    exfalso. apply Hcap. lra. }
  apply (y_axis_shows_every_bin (λ x : R, x) [1; 1; 1; 1; 10]%R 0 15
           identity_is_rounding); [| done | done |].
  - repeat constructor; apply integer_is_binary64; lia.
  - right. rewrite Hmax. cbn [foldl List.length].
    replace (INR 5) with 5%R by (cbn; lra). lra.
Defined.

(** ** Runs and their shard directories *)

Lemma digit_has_no_slash (x : N) (s : string) :
  Py.contains "/" s = false →
  Py.contains "/" (String (pretty_N_char x) s) = false.
Proof.
  intros Hs. cbn [Py.contains]. rewrite Hs, orb_false_r.
  unfold pretty_N_char. now repeat case_match.
Qed.

Lemma pretty_N_go_no_slash (x : N) (s : string) :
  Py.contains "/" s = false → Py.contains "/" (pretty_N_go x s) = false.
Proof.
  revert s. induction (N.lt_wf_0 x) as [x _ IH]; intros s Hs.
  assert (x = 0 ∨ 0 < x)%N as [-> | Hx] by lia.
  - now rewrite pretty_N_go_0.
  - rewrite pretty_N_go_step by done. apply IH.
    + now apply N.div_lt.
    + now apply digit_has_no_slash.
Qed.

Lemma str_no_slash (n : Z) : Py.contains "/" (Py.str n) = false.
Proof.
  unfold Py.str, pretty, pretty_Z. destruct n as [| p | p]; [done | |].
  - unfold pretty, pretty_positive, pretty, pretty_N.
    case_decide; [done |]. now apply pretty_N_go_no_slash.
  - unfold pretty, pretty_positive, pretty, pretty_N.
    case_decide; [done |].
    change ("-" +:+ ?s) with (String "-" s). cbn [Py.contains].
    now rewrite pretty_N_go_no_slash.
Qed.

Lemma component_cancel (a a' r r' : string) :
  Py.contains "/" a = false → Py.contains "/" a' = false →
  a +:+ "/" +:+ r = a' +:+ "/" +:+ r' → a = a' ∧ r = r'.
Proof.
  revert a'. induction a as [| c a IH]; intros [| c' a'] Ha Ha' Heq.
  - change (String "/" r = String "/" r') in Heq.
    split; [done |]. now injection Heq.
  - exfalso. change (String "/" r = String c' (a' +:+ "/" +:+ r')) in Heq.
    injection Heq as Hc _. subst c'. destruct a'; cbn in Ha'; discriminate Ha'.
  - exfalso. change (String c (a +:+ "/" +:+ r) = String "/" r') in Heq.
    injection Heq as Hc _. subst c. destruct a; cbn in Ha; discriminate Ha.
  - change (String c (a +:+ "/" +:+ r) = String c' (a' +:+ "/" +:+ r')) in Heq.
    injection Heq as Hc Heq. subst c'. cbn [Py.contains] in Ha, Ha'.
    apply orb_false_iff in Ha as [_ Ha]. apply orb_false_iff in Ha' as [_ Ha'].
    destruct (IH a' Ha Ha' Heq) as [-> ->]. done.
Qed.

(** X13: two runs below 10^15 are stored under the same shard directory
    exactly when they fall in the same block of a thousand run numbers. *)
Theorem same_directory_iff_same_thousand (rnd : R → R) (n m : Z) :
  Float.rounding rnd →
  (0 ≤ n < 10 ^ 15)%Z →
  (0 ≤ m < 10 ^ 15)%Z →
  run_dir_from_run_no rnd n = run_dir_from_run_no rnd m
  ↔ n / 1000 = m / 1000.
Proof.
  intros Hrnd Hn Hm. rewrite !run_dir_shards by done. split.
  - intros Heq.
    apply component_cancel in Heq as [_ Heq]; [| apply str_no_slash ..].
    destruct (component_cancel (Py.str (n / 1000 * 1000))
                (Py.str (m / 1000 * 1000)) "" ""
                (str_no_slash _) (str_no_slash _) Heq) as [Hstr _].
    apply (inj pretty) in Hstr. lia.
  - intros Heq.
    assert (Hten : n / 10000 = m / 10000).
    { replace 10000 with (1000 * 10) by lia.
      rewrite <- !Z.div_div by lia. now rewrite Heq. }
    now rewrite Heq, Hten.
Qed.

Lemma same_directory_iff_same_thousand_witness :
  run_dir_from_run_no (λ x : R, x) 265911 =
    run_dir_from_run_no (λ x : R, x) 265000.
Proof.
  apply (same_directory_iff_same_thousand (λ x : R, x) 265911 265000
           identity_is_rounding); [lia | lia | reflexivity].
Defined.
